(** * Smart Property PMS: the Express server of [server/index.js]

    A shallow embedding of the request handlers of the dashboard backend and
    of the role gate in front of them, with the properties its specification
    states about them.

    Conventions of the embedding.
    - A JavaScript string is a [string]: a sequence of code units below 256
      (Node decodes header bytes as Latin-1, so this is exact for [x-role]).
    - A JavaScript number is a [number]: an IEEE 754 double, with its
      rounding, its overflow to an infinity, its two zeros and [NaN]; array
      lengths, indices and counters, which are small integers, are [nat],
      and time values are [Z] (milliseconds).
    - A property that may be [undefined] is an [option]; the fields of a raw
      record carry the types the data model gives them (strings and
      numbers), and a query parameter is absent or one string.
    - [Date.now()] reads a clock that may advance between two calls; a thrown
      exception ends the request.  Both are threaded through the monad [M]. *)

From Stdlib Require Import List String Ascii Bool Arith ZArith NArith SpecFloat.
From Stdlib Require Import Lia Permutation Sorted DecimalString DecimalNat.
Import ListNotations.

Set Implicit Arguments.

Local Open Scope nat_scope.
Local Open Scope string_scope.
Local Open Scope list_scope.

(* ===================================================================== *)
(** ** Strings *)
(* ===================================================================== *)
Module Str.

(** [String.prototype.toLowerCase] on one code unit below 256: the letters
    A-Z and the Latin-1 capitals U+00C0-U+00DE (U+00D7, the multiplication
    sign, apart) move up by 32; every other code unit is kept. *)
Definition lower_char (c : ascii) : ascii :=
  let n := N_of_ascii c in
  if ((65 <=? n) && (n <=? 90) ||
      (192 <=? n) && (n <=? 222) && negb (n =? 215))%N
  then ascii_of_N (n + 32) else c.

Fixpoint toLowerCase (s : string) : string :=
  match s with
  | EmptyString => EmptyString
  | String c s' => String (lower_char c) (toLowerCase s')
  end.

(** [s.includes(t)]: [t] occurs in [s] as a substring. *)
Fixpoint includes (s t : string) : bool :=
  String.prefix t s ||
  match s with
  | EmptyString => false
  | String _ s' => includes s' t
  end.

(** ToBoolean of a string that may be [undefined]: only [undefined] and the
    empty string are falsy. *)
Definition truthy (v : option string) : bool :=
  match v with
  | Some s => negb (s =? "")
  | None => false
  end.

(** [a || b] between two values that may be [undefined]. *)
Definition or (a b : option string) : option string :=
  if truthy a then a else b.

(** [a || 'literal']: the result is always a string. *)
Definition or_lit (a : option string) (d : string) : string :=
  match a with
  | Some s => if s =? "" then d else s
  | None => d
  end.

(** The decimal numeral of a non-negative integer, as a template literal
    or [String(n)] prints it. *)
Definition of_nat (n : nat) : string := NilEmpty.string_of_uint (Nat.to_uint n).
Definition of_N (n : N) : string := NilEmpty.string_of_uint (N.to_uint n).

(** [padStart(width, '0')] of the numeral of [z >= 0]. *)
Fixpoint zeros (k : nat) : string :=
  match k with O => "" | S k' => String "0" (zeros k') end.

Definition pad (width : nat) (z : Z) : string :=
  let s := of_N (Z.to_N z) in
  zeros (width - String.length s) ++ s.

End Str.

(* ===================================================================== *)
(** ** Numbers *)
(* ===================================================================== *)

(** A JavaScript number is an IEEE 754 binary64 value: a signed zero, a
    signed infinity, [NaN], or a finite [(-1)^s * m * 2^e]. *)
Definition number : Type := spec_float.

Abbreviation NaN := S754_nan.

Module Number.

(** The format of a double: 53 bits of precision, exponents below 1024. *)
Definition prec : Z := 53.
Definition emax : Z := 1024.

Definition zero : number := S754_zero false.

(** The double nearest to an integer (ties to even), as the literal or the
    array length [z] evaluates. *)
Definition of_Z (z : Z) : number := binary_normalize prec emax z 0 false.
Definition of_nat (n : nat) : number := of_Z (Z.of_nat n).

(** ToNumber of a numeric property that may be [undefined]. *)
Definition ToNumber (v : option number) : number :=
  match v with
  | Some x => x
  | None => NaN
  end.

Definition is_zero (x : number) : bool :=
  match x with
  | S754_zero _ => true
  | _ => false
  end.

Definition is_nan (x : number) : bool :=
  match x with
  | S754_nan => true
  | _ => false
  end.

(** Neither [NaN] nor an infinity. *)
Definition is_finite (x : number) : bool :=
  match x with
  | S754_zero _ | S754_finite _ _ _ => true
  | _ => false
  end.

(** ToBoolean: [NaN], [+0] and [-0] are falsy. *)
Definition truthy (x : number) : bool := negb (is_zero x || is_nan x).

(** ToBoolean of a numeric property that may be [undefined]. *)
Definition truthy_opt (v : option number) : bool :=
  match v with
  | Some x => truthy x
  | None => false
  end.

(** [v || 0] for a numeric property that may be [undefined]. *)
Definition or_zero (v : option number) : number :=
  if truthy_opt v then ToNumber v else zero.

(** [x + y], [x * y] and [x / y], each rounded to the nearest double, a tie
    going to the even mantissa. *)
Definition add : number -> number -> number := SFadd prec emax.
Definition mul : number -> number -> number := SFmul prec emax.
Definition div : number -> number -> number := SFdiv prec emax.

(** The double nearest to the fraction [n / d] of two integers that are
    doubles themselves: the value of the decimal literals [0.2] (2/10) and
    [0.3] (3/10). *)
Definition ratio (n d : Z) : number := div (of_Z n) (of_Z d).

(** [x > y]: false as soon as one side is [NaN]. *)
Definition gt (x y : number) : bool := SFltb y x.

(** The double of the integer [(-1)^negative * n], for [0 <= n <= 2^53]. *)
Definition integer (negative : bool) (n : Z) : number :=
  if (n =? 0)%Z then S754_zero negative
  else
    let k := Z.max 0 (52 - Z.log2 n) in
    S754_finite negative (Z.to_pos (n * 2 ^ k)) (- k).

(** [Math.round]: the nearest integer, a tie going towards +Infinity; the
    sign of the argument is kept on a zero result, and [NaN], the infinities
    and the zeros are returned as they are. *)
Definition Math_round (x : number) : number :=
  match x with
  | S754_finite s m e =>
      if (0 <=? e)%Z then x
      else
        let d := (- e)%Z in
        integer s ((Z.pos m + 2 ^ (d - 1) - (if s then 1 else 0)) / 2 ^ d)
  | _ => x
  end.

(** The value is a finite integer. *)
Definition is_integer (x : number) : Prop :=
  match x with
  | S754_zero _ => True
  | S754_finite _ m e => (0 <= e)%Z \/ (Z.pos m mod 2 ^ (- e) = 0)%Z
  | _ => False
  end.

End Number.

(* ===================================================================== *)
(** ** Exceptions, the clock and the request monad *)
(* ===================================================================== *)

Inductive exn : Type := TypeError | RangeError.

(** The [k]-th call of [Date.now()] while the request is served returns
    [clock k]. *)
Definition Clock : Type := nat -> Z.

(** A computation reads the clock, counts the readings made so far, and
    either throws or returns a value with the new count. *)
Definition M (A : Type) : Type := Clock -> nat -> exn + (A * nat).

Definition ret {A} (a : A) : M A := fun _ n => inr (a, n).

Definition throw {A} (e : exn) : M A := fun _ _ => inl e.

Definition bind {A B} (m : M A) (f : A -> M B) : M B :=
  fun clock n =>
    match m clock n with
    | inl e => inl e
    | inr (a, n') => f a clock n'
    end.

Notation "x <- m ;; k" := (bind m (fun x => k))
  (at level 61, m at next level, right associativity).

Definition Date_now : M Z := fun clock n => inr (clock n, S n).

(* ===================================================================== *)
(** ** Dates *)
(* ===================================================================== *)
Module JsDate.

Local Open Scope Z_scope.

Definition msPerDay : Z := 86400000.

(** The largest time value of a [Date]; beyond it the date is invalid. *)
Definition maxTime : Z := 8640000000000000.

(** Year, month and day of the civil (proleptic Gregorian) calendar from
    the number of days since 1970-01-01. *)
Definition civil (days : Z) : Z * Z * Z :=
  let z := days + 719468 in
  let era := z / 146097 in
  let doe := z - era * 146097 in
  let yoe := (doe - doe / 1460 + doe / 36524 - doe / 146096) / 365 in
  let doy := doe - (365 * yoe + yoe / 4 - yoe / 100) in
  let mp := (5 * doy + 2) / 153 in
  let d := doy - (153 * mp + 2) / 5 + 1 in
  let m := if mp <? 10 then mp + 3 else mp - 9 in
  let y := yoe + era * 400 in
  (if m <=? 2 then y + 1 else y, m, d).

Definition year_string (y : Z) : string :=
  if (0 <=? y) && (y <=? 9999) then Str.pad 4 y
  else if y <? 0 then "-" ++ Str.pad 6 (- y)
  else "+" ++ Str.pad 6 y.

Definition format (t : Z) : string :=
  let '(y, m, d) := civil (t / msPerDay) in
  let r := t mod msPerDay in
  year_string y ++ "-" ++ Str.pad 2 m ++ "-" ++ Str.pad 2 d ++ "T" ++
  Str.pad 2 (r / 3600000) ++ ":" ++ Str.pad 2 (r / 60000 mod 60) ++ ":" ++
  Str.pad 2 (r / 1000 mod 60) ++ "." ++ Str.pad 3 (r mod 1000) ++ "Z".

(** [new Date(t).toISOString()]: a time value out of range makes an
    invalid date, on which [toISOString] throws a [RangeError]. *)
Definition toISOString (t : Z) : M string :=
  if Z.abs t <=? maxTime then ret (format t) else throw RangeError.

End JsDate.


(* ===================================================================== *)
(** ** Arrays *)
(* ===================================================================== *)
Module Arr.

(** [arr.map(f)]: the callback receives the element and its index. *)
Fixpoint map_from {A B} (f : A -> nat -> B) (index : nat) (l : list A) : list B :=
  match l with
  | [] => []
  | x :: l' => f x index :: map_from f (S index) l'
  end.

Definition map {A B} (f : A -> nat -> B) (l : list A) : list B := map_from f 0 l.

(** [arr.map(f)] for a callback that reads the clock or may throw. *)
Fixpoint mapM_from {A B} (f : A -> nat -> M B) (index : nat) (l : list A) : M (list B) :=
  match l with
  | [] => ret []
  | x :: l' =>
      y <- f x index ;;
      ys <- mapM_from f (S index) l' ;;
      ret (y :: ys)
  end.

Definition mapM {A B} (f : A -> nat -> M B) (l : list A) : M (list B) :=
  mapM_from f 0 l.

(** [arr.filter(p)] for a callback that may throw. *)
Fixpoint filterM {A} (p : A -> M bool) (l : list A) : M (list A) :=
  match l with
  | [] => ret []
  | x :: l' =>
      keep <- p x ;;
      rest <- filterM p l' ;;
      ret (if keep then x :: rest else rest)
  end.

(** [arr.slice(0, n)] *)
Definition slice0 {A} (n : nat) (l : list A) : list A := firstn n l.

(** [arr.sort(compare)] is stable (ES2019): an element moves in front of
    another only when the comparator returns a positive number for the
    pair. *)
Fixpoint insert {A} (compare : A -> A -> Z) (x : A) (l : list A) : list A :=
  match l with
  | [] => [x]
  | y :: l' => if (compare x y <=? 0)%Z then x :: y :: l'
               else y :: insert compare x l'
  end.

Definition sort {A} (compare : A -> A -> Z) (l : list A) : list A :=
  fold_right (insert compare) [] l.

(** [arr.includes(x)] on an array of strings. *)
Definition includes (l : list string) (x : string) : bool :=
  existsb (String.eqb x) l.

End Arr.

(* ===================================================================== *)
(** ** Plain objects used as maps *)
(* ===================================================================== *)
Module Obj.

(** The names every plain object inherits from [Object.prototype].  Each of
    them reads as a built-in function (or, for [__proto__], as the
    prototype object itself): a truthy value that is no array. *)
Definition Object_prototype : list string :=
  [ "constructor"; "__defineGetter__"; "__defineSetter__"; "hasOwnProperty";
    "__lookupGetter__"; "__lookupSetter__"; "isPrototypeOf";
    "propertyIsEnumerable"; "toString"; "valueOf"; "__proto__";
    "toLocaleString" ].

Definition inherited (key : string) : bool :=
  existsb (String.eqb key) Object_prototype.

(** The own properties of an object, in the order of their creation. *)
Definition t (A : Type) : Type := list (string * A).

(** What [o[key]] evaluates to. *)
Inductive property (A : Type) : Type :=
| Own (a : A)
| Inherited
| Undefined.
Arguments Own {A} a.
Arguments Inherited {A}.
Arguments Undefined {A}.

Fixpoint own {A} (o : t A) (key : string) : option A :=
  match o with
  | [] => None
  | (k, a) :: o' => if k =? key then Some a else own o' key
  end.

(** [o[key]]: an own property first, then the prototype chain. *)
Definition get {A} (o : t A) (key : string) : property A :=
  match own o key with
  | Some a => Own a
  | None => if inherited key then Inherited else Undefined
  end.

(** [o[key] = a]: an own property is overwritten in place, a new one is
    created after the others. *)
Fixpoint set {A} (o : t A) (key : string) (a : A) : t A :=
  match o with
  | [] => [(key, a)]
  | (k, b) :: o' => if k =? key then (k, a) :: o' else (k, b) :: set o' key a
  end.

(** An in-place update [o[key].field = ...] of the object stored under
    [key].  When [o[key]] is inherited the write lands on the built-in
    object and [o] gets no own property. *)
Fixpoint alter {A} (f : A -> A) (key : string) (o : t A) : t A :=
  match o with
  | [] => []
  | (k, b) :: o' => if k =? key then (k, f b) :: o' else (k, b) :: alter f key o'
  end.

(** A property name is an array index when it is the canonical numeral of
    an integer below 2^32 - 1. *)
Definition array_index (key : string) : option N :=
  match NilEmpty.uint_of_string key with
  | Some d =>
      let n := N.of_uint d in
      if (n <? 4294967295)%N && (Str.of_N n =? key) then Some n else None
  | None => None
  end.

Definition is_index {A} (p : string * A) : bool :=
  match array_index (fst p) with Some _ => true | None => false end.

Definition index_of {A} (p : string * A) : N :=
  match array_index (fst p) with Some n => n | None => 0%N end.

Definition by_index {A} (p q : string * A) : Z :=
  (Z.of_N (index_of p) - Z.of_N (index_of q))%Z.

(** The own properties in enumeration order: array indices in ascending
    numeric order, then the other names in creation order. *)
Definition ordered {A} (o : t A) : t A :=
  Arr.sort by_index (filter is_index o) ++
  filter (fun p => negb (is_index p)) o.

(** [Object.values(o)] *)
Definition values {A} (o : t A) : list A := map snd (ordered o).

End Obj.

(* ===================================================================== *)
(** ** Requests and responses *)
(* ===================================================================== *)

(** [req.user], attached by the gate. *)
Record User : Type := { role : string; permissions : list string }.

Module Req.

(** The parts of a request the server reads: the [x-role] header, the
    query parameters [status] and [area], and [req.user]. *)
Record t : Type := {
  x_role : option string;
  status : option string;
  area : option string;
  user : option User
}.

Definition with_user (req : t) (u : User) : t :=
  {| x_role := x_role req; status := status req; area := area req;
     user := Some u |}.

End Req.

(** What the handler chain sends: [res.json(body)] or
    [res.status(403).json({ message, role })]. *)
Inductive Response (A : Type) : Type :=
| Sent200 (body : A)
| Sent403 (message : string) (role : string).
Arguments Sent200 {A} body.
Arguments Sent403 {A} message role.

(** What the client receives: an exception that leaves the handler chain
    is answered by the default error handler with status 500. *)
Inductive Reply (A : Type) : Type :=
| Status200 (body : A)
| Status403 (message : string) (role : string)
| Status500 (e : exn).
Arguments Status200 {A} body.
Arguments Status403 {A} message role.
Arguments Status500 {A} e.

Definition serve {A} (chain : Req.t -> M (Response A)) (clock : Clock) (req : Req.t)
  : Reply A :=
  match chain req clock 0 with
  | inl e => Status500 e
  | inr (Sent200 body, _) => Status200 body
  | inr (Sent403 message role, _) => Status403 message role
  end.

(* ===================================================================== *)
(** ** Simple RBAC setup *)
(* ===================================================================== *)

Definition ROLE_PERMISSIONS : Obj.t (list string) :=
  [ ("admin", ["view_overview"; "view_sales"; "view_maintenance"]);
    ("sales", ["view_overview"; "view_sales"]);
    ("technician", ["view_overview"; "view_maintenance"]) ].

(** [ROLE_PERMISSIONS[role] || []] *)
Definition permissions_of (role : string) : Obj.property (list string) :=
  match Obj.get ROLE_PERMISSIONS role with
  | Obj.Undefined => Obj.Own []
  | p => p
  end.

(** When [permissions] is an inherited built-in function or object, it has
    no [includes] method and the call [permissions.includes(...)] throws. *)
Definition authorize {A} (requiredPermission : string)
  (req : Req.t) (next : Req.t -> M (Response A)) : M (Response A) :=
  let role := Str.toLowerCase (Str.or_lit (Req.x_role req) "sales") in
  match permissions_of role with
  | Obj.Own permissions =>
      if negb (Arr.includes permissions requiredPermission)
      then ret (Sent403 "Forbidden: insufficient permissions" role)
      else next (Req.with_user req {| role := role; permissions := permissions |})
  | _ => throw TypeError
  end.

(** [app.get(path, authorize(permission), handler)] *)
Definition app_get {A} (requiredPermission : string)
  (handler : Req.t -> M (Response A)) : Req.t -> M (Response A) :=
  fun req => authorize requiredPermission req handler.

(* ===================================================================== *)
(** ** Raw records and units *)
(* ===================================================================== *)
Module Raw.

(** The fields of a raw record the server consumes; each may be absent. *)
Record t : Type := {
  LISTINGID : option string;
  PROJECTNAME : option string;
  FULLADDRESS : option string;
  SUBLOCALITY : option string;
  PRICE : option number;
  PROPERTYSQFT : option number;
  STATUS : option string
}.

End Raw.

(** The content of [data.json]: any JSON value; the elements of an array
    are raw records. *)
Inductive Json : Type :=
| JNull
| JBool (b : bool)
| JNumber (x : number)
| JString (s : string)
| JObject
| JArray (items : list Raw.t).

Module Unit.

Record t : Type := {
  unitId : string;
  projectName : string;
  address : string;
  subLocality : option string;
  price : option number;
  sqft : option number;
  pricePerSqft : option number;   (* [None] is [null] *)
  status : string
}.

End Unit.

Definition toUnit (item : Raw.t) (index : nat) : Unit.t :=
  {| Unit.unitId :=
       Str.or_lit (Raw.LISTINGID item) ("UNIT-" ++ Str.of_nat (index + 1));
     Unit.projectName :=
       Str.or_lit (Str.or (Raw.PROJECTNAME item) (Raw.SUBLOCALITY item))
                  "Unknown Project";
     Unit.address :=
       Str.or_lit (Str.or (Raw.FULLADDRESS item) (Raw.SUBLOCALITY item))
                  "Unknown Address";
     Unit.subLocality := Raw.SUBLOCALITY item;
     Unit.price := Raw.PRICE item;
     Unit.sqft := Raw.PROPERTYSQFT item;
     Unit.pricePerSqft :=
       if Number.truthy_opt (Raw.PROPERTYSQFT item)
       then Some (Number.div (Number.ToNumber (Raw.PRICE item))
                             (Number.ToNumber (Raw.PROPERTYSQFT item)))
       else None;
     Unit.status :=
       Str.or_lit (Raw.STATUS item)
         (if Number.gt (Number.ToNumber (Raw.PRICE item)) (Number.of_Z 800000)
          then "Reserved" else "Available") |}.

(** [rawData.map(...)] and [rawData.slice(...)] followed by [.map(...)]:
    a [TypeError] unless [rawData] is an array. *)
Definition as_array (rawData : Json) : M (list Raw.t) :=
  match rawData with
  | JArray items => ret items
  | _ => throw TypeError
  end.

(* ===================================================================== *)
(** ** Payloads *)
(* ===================================================================== *)

(** The object kept per area in [areaMap]. *)
Module AreaTotals.
Record t : Type := { name : string; totalPrice : number; count : nat }.
End AreaTotals.

(** An element of [byArea]. *)
Module AreaEntry.
Record t : Type := { name : string; avgPrice : number; count : nat }.
End AreaEntry.

Module Overview.
Record t : Type := {
  totalValue : number;
  unitCount : nat;
  avgPrice : number;
  byArea : list AreaEntry.t
}.
End Overview.

(** An element of the answer of /api/property-insights: the fields of the
    unit, the raw record and the premium flag. *)
Module Insight.
Record t : Type := { unit : Unit.t; original : Raw.t; isPremium : bool }.
End Insight.

Module Installment.
Record t : Type := {
  installmentNo : nat;
  dueDate : string;
  amount : number;
  status : string
}.
End Installment.

Module Contract.
Record t : Type := {
  contractId : string;
  unitId : string;
  buyerName : string;
  bookingDate : string;
  totalPrice : option number;
  downPayment : number;
  installmentSchedule : list Installment.t
}.
End Contract.

Module Task.
Record t : Type := {
  taskId : string;
  unitId : string;
  projectName : string;
  subLocality : option string;
  priority : string;
  type : string;
  status : string;
  scheduledDate : string
}.
End Task.

(* ===================================================================== *)
(** ** The handlers *)
(* ===================================================================== *)

(** [const area = u.subLocality || 'Unknown'] *)
Definition area_of (u : Unit.t) : string :=
  Str.or_lit (Unit.subLocality u) "Unknown".

(** The two updates [areaMap[area].totalPrice += u.price || 0] and
    [areaMap[area].count += 1]. *)
Definition add_unit (u : Unit.t) (item : AreaTotals.t) : AreaTotals.t :=
  {| AreaTotals.name := AreaTotals.name item;
     AreaTotals.totalPrice :=
       Number.add (AreaTotals.totalPrice item) (Number.or_zero (Unit.price u));
     AreaTotals.count := AreaTotals.count item + 1 |}.

(** The body of [units.forEach((u) => ...)].  A stored object and an
    inherited built-in are both truthy, so only an undefined
    [areaMap[area]] creates an entry. *)
Definition areaMap_step (areaMap : Obj.t AreaTotals.t) (u : Unit.t)
  : Obj.t AreaTotals.t :=
  let area := area_of u in
  let areaMap :=
    match Obj.get areaMap area with
    | Obj.Undefined =>
        Obj.set areaMap area
          {| AreaTotals.name := area;
             AreaTotals.totalPrice := Number.zero;
             AreaTotals.count := 0 |}
    | _ => areaMap
    end in
  Obj.alter (add_unit u) area areaMap.

Definition area_entry (item : AreaTotals.t) : AreaEntry.t :=
  {| AreaEntry.name := AreaTotals.name item;
     AreaEntry.avgPrice :=
       if negb (AreaTotals.count item =? 0)%nat
       then Number.Math_round
              (Number.div (AreaTotals.totalPrice item)
                          (Number.of_nat (AreaTotals.count item)))
       else Number.zero;
     AreaEntry.count := AreaTotals.count item |}.

(** [(a, b) => b.count - a.count] *)
Definition by_count_desc (a b : AreaEntry.t) : Z :=
  (Z.of_nat (AreaEntry.count b) - Z.of_nat (AreaEntry.count a))%Z.

Definition zero_overview : Overview.t :=
  {| Overview.totalValue := Number.zero;
     Overview.unitCount := 0;
     Overview.avgPrice := Number.zero;
     Overview.byArea := [] |}.

(** [units.reduce((sum, u) => sum + (u.price || 0), 0)] *)
Definition total_value (units : list Unit.t) : number :=
  fold_left (fun sum u => Number.add sum (Number.or_zero (Unit.price u)))
            units Number.zero.

Definition by_area (units : list Unit.t) : list AreaEntry.t :=
  let areaMap := fold_left areaMap_step units [] in
  Arr.slice0 10 (Arr.sort by_count_desc (List.map area_entry (Obj.values areaMap))).

Definition contract_of (unit : Unit.t) (index : nat) : M Contract.t :=
  let round_share (share : number) :=
    Number.Math_round (Number.mul (Number.ToNumber (Unit.price unit)) share) in
  now0 <- Date_now ;;
  bookingDate <- JsDate.toISOString (now0 - Z.of_nat index * 86400000)%Z ;;
  now1 <- Date_now ;;
  dueDate1 <- JsDate.toISOString (now1 + 30 * 86400000)%Z ;;
  now2 <- Date_now ;;
  dueDate2 <- JsDate.toISOString (now2 + 60 * 86400000)%Z ;;
  now3 <- Date_now ;;
  dueDate3 <- JsDate.toISOString (now3 + 90 * 86400000)%Z ;;
  ret {| Contract.contractId := "CN-" ++ Str.of_nat (index + 1);
         Contract.unitId := Unit.unitId unit;
         Contract.buyerName := "Buyer " ++ Str.of_nat (index + 1);
         Contract.bookingDate := bookingDate;
         Contract.totalPrice := Unit.price unit;
         Contract.downPayment := round_share (Number.ratio 2 10);
         Contract.installmentSchedule :=
           [ {| Installment.installmentNo := 1;
                Installment.dueDate := dueDate1;
                Installment.amount := round_share (Number.ratio 2 10);
                Installment.status := "Pending" |};
             {| Installment.installmentNo := 2;
                Installment.dueDate := dueDate2;
                Installment.amount := round_share (Number.ratio 3 10);
                Installment.status := "Pending" |};
             {| Installment.installmentNo := 3;
                Installment.dueDate := dueDate3;
                Installment.amount := round_share (Number.ratio 3 10);
                Installment.status := "Pending" |} ] |}.

(** [unit.pricePerSqft && unit.pricePerSqft > 500], as the condition of
    the conditional reads it. *)
Definition above_500 (pricePerSqft : option number) : bool :=
  match pricePerSqft with
  | Some x => Number.truthy x && Number.gt x (Number.of_Z 500)
  | None => false
  end.

Definition task_of (unit : Unit.t) (index : nat) : M Task.t :=
  now <- Date_now ;;
  scheduledDate <- JsDate.toISOString (now + Z.of_nat (index + 1) * 86400000)%Z ;;
  ret {| Task.taskId := "MT-" ++ Str.of_nat (index + 1);
         Task.unitId := Unit.unitId unit;
         Task.projectName := Unit.projectName unit;
         Task.subLocality := Unit.subLocality unit;
         Task.priority :=
           if Number.gt (Number.ToNumber (Unit.price unit)) (Number.of_Z 900000)
           then "High" else "Normal";
         Task.type :=
           if above_500 (Unit.pricePerSqft unit)
           then "Inspection" else "General Repair";
         Task.status := if (index mod 3 =? 0)%nat then "In Progress" else "Open";
         Task.scheduledDate := scheduledDate |}.

(** [String(v)] *)
Definition String_of (v : option string) : string :=
  match v with Some s => s | None => "undefined" end.

(** [v.toLowerCase()]: a [TypeError] on [undefined]. *)
Definition call_toLowerCase (v : option string) : M string :=
  match v with
  | Some s => ret (Str.toLowerCase s)
  | None => throw TypeError
  end.

(** [(u) => String(u.status).toLowerCase() === String(status).toLowerCase()] *)
Definition status_matches (status : option string) (u : Unit.t) : bool :=
  Str.toLowerCase (String_of (Some (Unit.status u))) =?
  Str.toLowerCase (String_of status).

(** [(u) => u.subLocality && u.subLocality.toLowerCase().includes(area.toLowerCase())] *)
Definition area_matches (area : option string) (u : Unit.t) : M bool :=
  if Str.truthy (Unit.subLocality u)
  then
    s <- call_toLowerCase (Unit.subLocality u) ;;
    a <- call_toLowerCase area ;;
    ret (Str.includes s a)
  else ret false.

Section Server.

(** [const rawData = require('./data.json')] *)
Variable rawData : Json.

(** GET /api/dashboard/overview *)
Definition dashboard_overview (req : Req.t) : M (Response Overview.t) :=
  match rawData with
  | JArray ((_ :: _) as items) =>
      let units := Arr.map toUnit items in
      let totalValue := total_value units in
      let unitCount := List.length units in
      let avgPrice :=
        if (0 <? unitCount)%nat
        then Number.div totalValue (Number.of_nat unitCount)
        else Number.zero in
      let byArea := by_area units in
      ret (Sent200 {| Overview.totalValue := totalValue;
                      Overview.unitCount := unitCount;
                      Overview.avgPrice := avgPrice;
                      Overview.byArea := byArea |})
  | _ => ret (Sent200 zero_overview)
  end.

(** GET /api/property-insights *)
Definition property_insights (req : Req.t) : M (Response (list Insight.t)) :=
  items <- as_array rawData ;;
  let insights :=
    Arr.map (fun item index =>
               let unit := toUnit item index in
               {| Insight.unit := unit;
                  Insight.original := item;
                  Insight.isPremium :=
                    Number.gt (Number.ToNumber (Raw.PRICE item))
                              (Number.of_Z 1000000) |})
            items in
  ret (Sent200 insights).

(** GET /api/properties *)
Definition properties (req : Req.t) : M (Response (list Unit.t)) :=
  let status := Req.status req in
  let area := Req.area req in
  items <- as_array rawData ;;
  let units := Arr.map toUnit items in
  let units :=
    if Str.truthy status then filter (status_matches status) units else units in
  units <- (if Str.truthy area then Arr.filterM (area_matches area) units
            else ret units) ;;
  ret (Sent200 (Arr.slice0 200 units)).

(** GET /api/sales/contracts *)
Definition sales_contracts (req : Req.t) : M (Response (list Contract.t)) :=
  items <- as_array rawData ;;
  let units := Arr.map toUnit (Arr.slice0 100 items) in
  contracts <- Arr.mapM contract_of units ;;
  ret (Sent200 contracts).

(** GET /api/maintenance/tasks *)
Definition maintenance_tasks (req : Req.t) : M (Response (list Task.t)) :=
  items <- as_array rawData ;;
  let units := Arr.map toUnit (Arr.slice0 50 items) in
  tasks <- Arr.mapM task_of units ;;
  ret (Sent200 tasks).

(** The routes, each behind its gate. *)
Definition GET_dashboard_overview := app_get "view_overview" dashboard_overview.
Definition GET_property_insights := app_get "view_overview" property_insights.
Definition GET_properties := app_get "view_sales" properties.
Definition GET_sales_contracts := app_get "view_sales" sales_contracts.
Definition GET_maintenance_tasks := app_get "view_maintenance" maintenance_tasks.

End Server.

(* ===================================================================== *)
(** ** The words of the specification, and invariants *)
(* ===================================================================== *)

(** The fixed permission table of the specification. *)
Definition permission_table (role : string) : list string :=
  if role =? "admin" then ["view_overview"; "view_sales"; "view_maintenance"]
  else if role =? "sales" then ["view_overview"; "view_sales"]
  else if role =? "technician" then ["view_overview"; "view_maintenance"]
  else [].

(** A fallback chain: the first candidate that is present and not empty,
    else the fixed placeholder. *)
Fixpoint fallback_chain (candidates : list (option string)) (placeholder : string)
  : string :=
  match candidates with
  | [] => placeholder
  | Some s :: rest => if s =? "" then fallback_chain rest placeholder else s
  | None :: rest => fallback_chain rest placeholder
  end.

(** The record has a price, and it exceeds [bound]. *)
Definition price_exceeds (price : option number) (bound : Z) : Prop :=
  exists p, price = Some p /\ Number.gt p (Number.of_Z bound) = true.

(** The price of a unit, an absent price, a zero and [NaN] counting
    as 0. *)
Definition price_or_0 (u : Unit.t) : number :=
  match Unit.price u with
  | Some p => if Number.is_zero p || Number.is_nan p then Number.zero else p
  | None => Number.zero
  end.

(** The sum of some numbers, added to 0 one after the other from the
    left, each addition rounded. *)
Definition sum_left (l : list number) : number :=
  fold_left Number.add l Number.zero.

(** The units of one area, in dataset order. *)
Definition units_of_area (name : string) (units : list Unit.t) : list Unit.t :=
  filter (fun u => area_of u =? name) units.

(** The readings of the clock stay a hundred days inside the range of
    valid dates. *)
Definition clock_in_range (clock : Clock) : Prop :=
  forall k, (Z.abs (clock k) <= JsDate.maxTime - 100 * JsDate.msPerDay)%Z.

(** Equality and containment of strings up to case. *)
Definition equals_ignoring_case (a b : string) : bool :=
  Str.toLowerCase a =? Str.toLowerCase b.

Definition contains_ignoring_case (s sub : string) : bool :=
  Str.includes (Str.toLowerCase s) (Str.toLowerCase sub).

(** The status filter: without a (non-empty) query value every unit
    passes. *)
Definition passes_status (status : option string) (u : Unit.t) : bool :=
  match status with
  | Some s => (s =? "") || equals_ignoring_case (Unit.status u) s
  | None => true
  end.

(** The area filter: without a (non-empty) query value every unit passes;
    with one, a unit passes when it has a subLocality that contains the
    value. *)
Definition passes_area (area : option string) (u : Unit.t) : bool :=
  match area with
  | Some a =>
      (a =? "") ||
      match Unit.subLocality u with
      | Some s => contains_ignoring_case s a
      | None => false
      end
  | None => true
  end.

(** The terms of the contract of a unit built after [n] readings of the
    clock: the total price is the unit's, the down payment is
    round(price * 0.2), and the three installments are round(price * 0.2),
    round(price * 0.3) and round(price * 0.3), due 30, 60 and 90 days after
    the clock reading taken for each, all "Pending". *)
Definition contract_terms (clock : Clock) (n : nat) (unit : Unit.t)
  (c : Contract.t) : Prop :=
  let price := Number.ToNumber (Unit.price unit) in
  let share (s : number) := Number.Math_round (Number.mul price s) in
  let due (k : nat) (days : Z) :=
    JsDate.format (clock (n + k)%nat + days * JsDate.msPerDay)%Z in
  Contract.unitId c = Unit.unitId unit /\
  Contract.totalPrice c = Unit.price unit /\
  Contract.downPayment c = share (Number.ratio 2 10) /\
  Contract.installmentSchedule c =
    [ {| Installment.installmentNo := 1;
         Installment.dueDate := due 1 30%Z;
         Installment.amount := share (Number.ratio 2 10);
         Installment.status := "Pending" |};
      {| Installment.installmentNo := 2;
         Installment.dueDate := due 2 60%Z;
         Installment.amount := share (Number.ratio 3 10);
         Installment.status := "Pending" |};
      {| Installment.installmentNo := 3;
         Installment.dueDate := due 3 90%Z;
         Installment.amount := share (Number.ratio 3 10);
         Installment.status := "Pending" |} ].

(** The value is present and exceeds [bound]. *)
Definition exceeds (v : option number) (bound : Z) : Prop :=
  exists x, v = Some x /\ Number.gt x (Number.of_Z bound) = true.

(** The terms of the task of a unit at position [index]. *)
Definition task_terms (index : nat) (unit : Unit.t) (t : Task.t) : Prop :=
  Task.unitId t = Unit.unitId unit /\
  (Task.status t = "In Progress" <-> index mod 3 = 0) /\
  (Task.status t = "Open" <-> index mod 3 <> 0) /\
  (Task.priority t = "High" <-> price_exceeds (Unit.price unit) 900000) /\
  (Task.priority t = "Normal" <-> ~ price_exceeds (Unit.price unit) 900000) /\
  (Task.type t = "Inspection" <-> exceeds (Unit.pricePerSqft unit) 500) /\
  (Task.type t = "General Repair" <-> ~ exceeds (Unit.pricePerSqft unit) 500).

(** The object kept for the area [name] holds the totals of the units of
    that area: their number and the sum of their prices. *)
Definition totals_of_area (units : list Unit.t) (name : string)
  (item : AreaTotals.t) : Prop :=
  AreaTotals.name item = name /\
  Obj.inherited name = false /\
  units_of_area name units <> [] /\
  AreaTotals.count item = List.length (units_of_area name units) /\
  AreaTotals.totalPrice item =
    sum_left (List.map price_or_0 (units_of_area name units)).

(** The invariant of the loop over the units: every own property of
    [areaMap] holds the totals of its area, and an area without an own
    property is an inherited name or has no unit yet. *)
Definition areaMap_inv (units : list Unit.t) (areaMap : Obj.t AreaTotals.t) : Prop :=
  forall name,
    match Obj.own areaMap name with
    | Some item => totals_of_area units name item
    | None => Obj.inherited name = true \/ units_of_area name units = []
    end.

(** An element of [byArea] describes the units of its area. *)
Definition entry_of_area (units : list Unit.t) (e : AreaEntry.t) : Prop :=
  let group := units_of_area (AreaEntry.name e) units in
  group <> [] /\
  AreaEntry.count e = List.length group /\
  AreaEntry.avgPrice e =
    Number.Math_round
      (Number.div (sum_left (List.map price_or_0 group))
                  (Number.of_nat (List.length group))).

(** Descending order of the counts. *)
Definition count_ge (a b : AreaEntry.t) : Prop :=
  AreaEntry.count b <= AreaEntry.count a.

(** The units the overview is computed from: those of the records when the
    dataset is an array, none otherwise. *)
Definition dataset_units (rawData : Json) : list Unit.t :=
  match rawData with
  | JArray items => Arr.map toUnit items
  | _ => []
  end.

(** The average price of some units: the sum of their prices divided by
    their number, not rounded to an integer. *)
Definition average_price (units : list Unit.t) : number :=
  Number.div (sum_left (List.map price_or_0 units))
             (Number.of_nat (List.length units)).

(** The field is absent or the empty string. *)
Definition blank (v : option string) : Prop := v = None \/ v = Some "".

(** The units that can be counted in an area: those whose area name is not
    inherited from [Object.prototype]. *)
Definition countable_units (units : list Unit.t) : list Unit.t :=
  filter (fun u => negb (Obj.inherited (area_of u))) units.

(** The sum of the counts kept in [areaMap], and of those of a list of
    elements of byArea. *)
Definition totals_count (areaMap : Obj.t AreaTotals.t) : nat :=
  list_sum (List.map (fun p => AreaTotals.count (snd p)) areaMap).

Definition entries_count (entries : list AreaEntry.t) : nat :=
  list_sum (List.map AreaEntry.count entries).

(** The area a record is counted in. *)
Definition area_of_record (item : Raw.t) : string :=
  Str.or_lit (Raw.SUBLOCALITY item) "Unknown".

(** The labels of the contract built at position [index] after [n]
    readings of the clock: its number, its synthetic buyer and a booking
    date [index] days before the reading. *)
Definition contract_labels (clock : Clock) (n index : nat) (c : Contract.t) : Prop :=
  Contract.contractId c = ("CN-" ++ Str.of_nat (index + 1))%string /\
  Contract.buyerName c = ("Buyer " ++ Str.of_nat (index + 1))%string /\
  Contract.bookingDate c =
    JsDate.format (clock n - Z.of_nat index * JsDate.msPerDay)%Z.

(** The labels of the task built at position [index] after [n] readings of
    the clock: its number, the project and sub-locality of its unit, and a
    date [index + 1] days after the reading. *)
Definition task_labels (clock : Clock) (n index : nat) (unit : Unit.t)
  (t : Task.t) : Prop :=
  Task.taskId t = ("MT-" ++ Str.of_nat (index + 1))%string /\
  Task.projectName t = Unit.projectName unit /\
  Task.subLocality t = Unit.subLocality unit /\
  Task.scheduledDate t =
    JsDate.format (clock n + Z.of_nat (index + 1) * JsDate.msPerDay)%Z.

(** The price of the unit exceeds 800000, as the derived status tests it. *)
Definition above_800000 (u : Unit.t) : bool :=
  Number.gt (Number.ToNumber (Unit.price u)) (Number.of_Z 800000).

(* ===================================================================== *)
(** ** Sample data *)
(* ===================================================================== *)
Module Sample.

Definition record (subLocality : option string) (price sqft : option Z) : Raw.t :=
  {| Raw.LISTINGID := None; Raw.PROJECTNAME := None; Raw.FULLADDRESS := None;
     Raw.SUBLOCALITY := subLocality; Raw.PRICE := option_map Number.of_Z price;
     Raw.PROPERTYSQFT := option_map Number.of_Z sqft; Raw.STATUS := None |}.

Definition request (x_role : option string) (status area : option string) : Req.t :=
  {| Req.x_role := x_role; Req.status := status; Req.area := area;
     Req.user := None |}.

(** A clock that starts on 2023-11-14 and ticks one millisecond per
    reading, a thousand times. *)
Definition clock : Clock := fun k => (1700000000000 + Z.of_nat (Nat.min k 1000))%Z.

Definition bare : Raw.t := record None None None.
Definition soho : Raw.t := record (Some "SoHo") (Some 950000%Z) (Some 1000%Z).
Definition loft : Raw.t := record (Some "Tribeca") (Some 1%Z) (Some 0%Z).
Definition shadowed : Raw.t := record (Some "constructor") (Some 100%Z) None.

(** The example of the specification: three records priced 100, 200 and
    300, none with a sub-locality. *)
Definition three : list Raw.t :=
  [record None (Some 100%Z) None; record None (Some 200%Z) None;
   record None (Some 300%Z) None].

(** A record with a status of its own and one with only a sub-locality. *)
Definition sold : Raw.t :=
  {| Raw.LISTINGID := Some "L-7"; Raw.PROJECTNAME := None;
     Raw.FULLADDRESS := None; Raw.SUBLOCALITY := Some "SoHo";
     Raw.PRICE := Some (Number.of_Z 5); Raw.PROPERTYSQFT := None; Raw.STATUS := Some "Sold" |}.
Definition unpriced : Raw.t := record (Some "SoHo") None (Some 1000%Z).

(** Two units of one area, priced 1 and 2. *)
Definition pair : list Raw.t :=
  [record (Some "SoHo") (Some 1%Z) None; record (Some "SoHo") (Some 2%Z) None].

(** Two units of one area, each priced 1e308. *)
Definition huge : list Raw.t :=
  [record (Some "SoHo") (Some (10 ^ 308)%Z) None;
   record (Some "SoHo") (Some (10 ^ 308)%Z) None].

End Sample.

(* ===================================================================== *)
(** ** The entity mapper *)
(* ===================================================================== *)

Lemma or_lit_chain1 (a : option string) (d : string) :
  Str.or_lit a d = fallback_chain [a] d.
Proof. destruct a as [s|]; reflexivity. Qed.

Lemma or_lit_chain2 (a b : option string) (d : string) :
  Str.or_lit (Str.or a b) d = fallback_chain [a; b] d.
Proof.
  unfold Str.or, Str.truthy.
  destruct a as [s|]; simpl; [|destruct b; reflexivity].
  destruct (s =? "") eqn:E; simpl.
  - destruct b; reflexivity.
  - now rewrite E.
Qed.

Lemma fallback_chain_nonempty (candidates : list (option string)) (d : string) :
  d <> "" -> fallback_chain candidates d <> "".
Proof.
  intros Hd. induction candidates as [|[s|] rest IH]; simpl; auto.
  destruct (s =? "") eqn:E; auto.
  now apply String.eqb_neq in E.
Qed.

(** C7, as stated, fails: a record without a sub-locality gives a unit
    without one. *)
Lemma toUnit_subLocality_may_be_absent :
  ~ (forall (item : Raw.t) (index : nat),
        exists s, Unit.subLocality (toUnit item index) = Some s).
Proof.
  intros H. destruct (H Sample.bare 0) as [s Hs]. discriminate Hs.
Qed.

(** C7 (amended): the subLocality of a unit is the raw record's
    sub-locality as it is, absent when the record has none; the fallback
    chains ending in a fixed placeholder belong to projectName and address,
    which are therefore never empty. *)
Theorem toUnit_subLocality_is_raw (item : Raw.t) (index : nat) :
  Unit.subLocality (toUnit item index) = Raw.SUBLOCALITY item /\
  Unit.projectName (toUnit item index) =
    fallback_chain [Raw.PROJECTNAME item; Raw.SUBLOCALITY item] "Unknown Project" /\
  Unit.address (toUnit item index) =
    fallback_chain [Raw.FULLADDRESS item; Raw.SUBLOCALITY item] "Unknown Address" /\
  Unit.projectName (toUnit item index) <> "" /\
  Unit.address (toUnit item index) <> "".
Proof.
  unfold toUnit; cbn [Unit.subLocality Unit.projectName Unit.address].
  rewrite !or_lit_chain2.
  repeat split; apply fallback_chain_nonempty; discriminate.
Qed.

Lemma gt_NaN (y : number) : Number.gt NaN y = false.
Proof. destruct y; reflexivity. Qed.

Lemma div_NaN (y : number) : Number.div NaN y = NaN.
Proof. destruct y; reflexivity. Qed.

Lemma mul_NaN (y : number) : Number.mul NaN y = NaN.
Proof. destruct y; reflexivity. Qed.

Lemma gt_price_exceeds (price : option number) (bound : Z) :
  Number.gt (Number.ToNumber price) (Number.of_Z bound) = true <->
  price_exceeds price bound.
Proof.
  unfold price_exceeds. destruct price as [p|]; cbn [Number.ToNumber].
  - split.
    + intros H. exists p. split; [reflexivity | exact H].
    + intros [p' [[= <-] H]]. exact H.
  - rewrite gt_NaN. split; [discriminate|]. intros [p [H _]]. discriminate H.
Qed.

(** C8: pricePerSqft is the double price / sqft when sqft is present and
    neither a zero nor NaN, and null when sqft is a zero or absent; without
    an explicit status the unit is "Reserved" when its price exceeds 800000
    and "Available" otherwise. *)
Theorem toUnit_pricePerSqft_and_status (item : Raw.t) (index : nat) :
  (forall sqft, Raw.PROPERTYSQFT item = Some sqft ->
     Number.is_zero sqft = false -> Number.is_nan sqft = false ->
     Unit.pricePerSqft (toUnit item index) =
       Some (Number.div (Number.ToNumber (Raw.PRICE item)) sqft)) /\
  (Raw.PROPERTYSQFT item = None \/
   (exists sqft, Raw.PROPERTYSQFT item = Some sqft /\ Number.is_zero sqft = true) ->
     Unit.pricePerSqft (toUnit item index) = None) /\
  (Raw.STATUS item = None ->
     (price_exceeds (Raw.PRICE item) 800000 <->
        Unit.status (toUnit item index) = "Reserved") /\
     (~ price_exceeds (Raw.PRICE item) 800000 <->
        Unit.status (toUnit item index) = "Available")).
Proof.
  unfold toUnit; cbn [Unit.pricePerSqft Unit.status].
  split; [|split].
  - intros sqft -> Hz Hn.
    cbn [Number.truthy_opt Number.ToNumber]. unfold Number.truthy.
    now rewrite Hz, Hn.
  - intros [-> | [sqft [-> Hz]]]; [reflexivity|].
    cbn [Number.truthy_opt]. unfold Number.truthy. now rewrite Hz.
  - intros ->. cbn [Str.or_lit].
    rewrite <- (gt_price_exceeds (Raw.PRICE item) 800000).
    destruct (Number.gt _ _); split; split; intros H;
      reflexivity || discriminate || congruence.
Qed.

Lemma toUnit_pricePerSqft_and_status_witness :
  Unit.pricePerSqft (toUnit Sample.soho 0) = Some (Number.of_Z 950) /\
  Unit.pricePerSqft (toUnit Sample.loft 1) = None /\
  Unit.status (toUnit Sample.soho 0) = "Reserved".
Proof.
  split; [|split].
  - apply (proj1 (toUnit_pricePerSqft_and_status Sample.soho 0) (Number.of_Z 1000));
      reflexivity.
  - apply (proj1 (proj2 (toUnit_pricePerSqft_and_status Sample.loft 1))).
    right. exists (Number.of_Z 0). split; reflexivity.
  - apply (proj2 (proj2 (toUnit_pricePerSqft_and_status Sample.soho 0)) eq_refl).
    exists (Number.of_Z 950000). split; reflexivity.
Defined.

(* ===================================================================== *)
(** ** The access gate *)
(* ===================================================================== *)

Lemma lower_char_idempotent (c : ascii) :
  Str.lower_char (Str.lower_char c) = Str.lower_char c.
Proof. destruct c as [[] [] [] [] [] [] [] []]; reflexivity. Qed.

Lemma toLowerCase_idempotent (s : string) :
  Str.toLowerCase (Str.toLowerCase s) = Str.toLowerCase s.
Proof.
  induction s as [|c s IH]; simpl; [reflexivity|].
  now rewrite lower_char_idempotent, IH.
Qed.

(** After lowercasing, only two inherited names can still be hit. *)
Lemma inherited_lowercase (s : string) :
  Obj.inherited (Str.toLowerCase s) = true ->
  Str.toLowerCase s = "constructor" \/ Str.toLowerCase s = "__proto__".
Proof.
  unfold Obj.inherited, Obj.Object_prototype. intros H.
  apply existsb_exists in H. destruct H as [name [Hin Heq]].
  apply String.eqb_eq in Heq.
  assert (Hfix : Str.toLowerCase name = name)
    by (rewrite <- Heq; apply toLowerCase_idempotent).
  rewrite Heq.
  simpl in Hin.
  repeat (destruct Hin as [<- | Hin]; [first [now left | now right | discriminate Hfix]|]).
  contradiction.
Qed.

(** Outside the inherited names the lookup is the table of the
    specification. *)
Lemma permissions_of_table (role : string) :
  Obj.inherited role = false ->
  permissions_of role = Obj.Own (permission_table role).
Proof.
  intros Hinh. unfold permissions_of, Obj.get, permission_table, ROLE_PERMISSIONS.
  cbn [Obj.own]. rewrite !(String.eqb_sym _ role).
  destruct (role =? "admin"); [reflexivity|].
  destruct (role =? "sales"); [reflexivity|].
  destruct (role =? "technician"); [reflexivity|].
  now rewrite Hinh.
Qed.

Lemma permissions_of_inherited (role : string) :
  Obj.inherited role = true -> permissions_of role = Obj.Inherited.
Proof.
  intros Hinh. unfold permissions_of, Obj.get.
  destruct (Obj.own ROLE_PERMISSIONS role) eqn:E.
  - exfalso. unfold ROLE_PERMISSIONS in E. simpl in E.
    unfold Obj.inherited, Obj.Object_prototype in Hinh.
    apply existsb_exists in Hinh. destruct Hinh as [name [Hin Heq]].
    apply String.eqb_eq in Heq. subst name.
    simpl in Hin.
    repeat (destruct Hin as [<- | Hin]; [discriminate E|]).
    contradiction.
  - now rewrite Hinh.
Qed.

(** X1: The gate on every role that is not an inherited name: 403 with the
    resolved role exactly when the table lacks the permission, and then
    the handler is not entered; otherwise the handler runs on the request
    with the user attached. *)
Theorem authorize_by_table {A} (requiredPermission : string) (req : Req.t)
  (next : Req.t -> M (Response A)) (clock : Clock) (n : nat) :
  let role := Str.toLowerCase (Str.or_lit (Req.x_role req) "sales") in
  Obj.inherited role = false ->
  authorize requiredPermission req next clock n =
    if Arr.includes (permission_table role) requiredPermission
    then next (Req.with_user req {| role := role;
                                    permissions := permission_table role |})
              clock n
    else inr (Sent403 "Forbidden: insufficient permissions" role, n).
Proof.
  intros role Hinh. unfold authorize. fold role.
  rewrite (permissions_of_table _ Hinh).
  destruct (Arr.includes (permission_table role) requiredPermission); reflexivity.
Qed.

Lemma authorize_by_table_witness :
  serve (app_get "view_maintenance" (fun _ => ret (Sent200 tt))) Sample.clock
        (Sample.request (Some "Sales") None None)
  = Status403 "Forbidden: insufficient permissions" "sales".
Proof.
  unfold serve, app_get.
  rewrite (@authorize_by_table unit "view_maintenance"
             (Sample.request (Some "Sales") None None) _ Sample.clock 0);
    reflexivity.
Defined.

(** The gate on an inherited name: the lookup finds a built-in, the call
    of [includes] throws, and neither a 403 nor the handler follows. *)
Theorem authorize_inherited_throws {A} (requiredPermission : string) (req : Req.t)
  (next : Req.t -> M (Response A)) (clock : Clock) (n : nat) :
  Obj.inherited (Str.toLowerCase (Str.or_lit (Req.x_role req) "sales")) = true ->
  authorize requiredPermission req next clock n = inl TypeError.
Proof.
  intros Hinh. unfold authorize.
  now rewrite (permissions_of_inherited _ Hinh).
Qed.

Lemma authorize_inherited_throws_witness :
  authorize "view_sales" (Sample.request (Some "__PROTO__") None None)
            (fun _ => ret (Sent200 tt)) Sample.clock 0 = inl TypeError.
Proof.
  apply (@authorize_inherited_throws unit). reflexivity.
Defined.

(** C1: the gate does not answer 403 to every role outside admin, sales
    and technician: for the header [x-role: constructor] the lookup in the
    table finds the inherited constructor, the gate throws, and every
    protected endpoint answers 500, whatever its permission and handler. *)
Theorem gate_constructor_role_500 {A} (requiredPermission : string)
  (handler : Req.t -> M (Response A)) (clock : Clock)
  (status area : option string) :
  serve (app_get requiredPermission handler) clock
        (Sample.request (Some "constructor") status area)
  = Status500 TypeError.
Proof. reflexivity. Qed.

(* ===================================================================== *)
(** ** Arithmetic of stored numbers *)
(* ===================================================================== *)

Lemma or_zero_price (u : Unit.t) : Number.or_zero (Unit.price u) = price_or_0 u.
Proof.
  unfold Number.or_zero, price_or_0, Number.truthy_opt, Number.truthy, Number.ToNumber.
  destruct (Unit.price u) as [p|]; [|reflexivity].
  now destruct (Number.is_zero p || Number.is_nan p).
Qed.

Lemma sum_left_snoc (l : list number) (x : number) :
  sum_left (l ++ [x]) = Number.add (sum_left l) x.
Proof. unfold sum_left. now rewrite fold_left_app. Qed.

Lemma total_value_snoc (units : list Unit.t) (u : Unit.t) :
  total_value (units ++ [u]) =
  Number.add (total_value units) (Number.or_zero (Unit.price u)).
Proof. unfold total_value. now rewrite fold_left_app. Qed.

(** The running total is the sum of the prices from the left, an absent
    price counting as 0. *)
Lemma total_value_sum (units : list Unit.t) :
  total_value units = sum_left (List.map price_or_0 units).
Proof.
  induction units as [|u units IH] using rev_ind; [reflexivity|].
  rewrite total_value_snoc, IH, map_app. cbn [List.map].
  now rewrite sum_left_snoc, or_zero_price.
Qed.

Lemma In_firstn {A} (x : A) (k : nat) (l : list A) :
  In x (firstn k l) -> In x l.
Proof.
  intros H. rewrite <- (firstn_skipn k l). apply in_or_app. now left.
Qed.

Lemma map_from_length {A B} (f : A -> nat -> B) (l : list A) (i : nat) :
  List.length (Arr.map_from f i l) = List.length l.
Proof.
  revert i. induction l as [|x l IH]; intros i; simpl; [reflexivity|].
  now rewrite IH.
Qed.

Lemma map_from_nth {A B} (f : A -> nat -> B) (l : list A) (i j : nat) :
  nth_error (Arr.map_from f i l) j =
  option_map (fun x => f x (i + j)) (nth_error l j).
Proof.
  revert i j. induction l as [|x l IH]; intros i [|j]; simpl; try reflexivity.
  - now rewrite Nat.add_0_r.
  - rewrite IH. now rewrite Nat.add_succ_r.
Qed.

(* ===================================================================== *)
(** ** GET /api/dashboard/overview: the totals *)
(* ===================================================================== *)

(** C2: totalValue is the sum of the unit prices, an absent price counting
    as 0 (the prices are added to 0 from the left, each addition rounded
    to a double, so the sum can reach an infinity), unitCount is the number
    of records, avgPrice is the double totalValue / unitCount when
    unitCount > 0 and 0 otherwise; a dataset that is no array or an empty
    one gives the zeroed payload. *)
Theorem overview_totals (rawData : Json) (req : Req.t) (clock : Clock) (n : nat) :
  exists ov : Overview.t,
    dashboard_overview rawData req clock n = inr (Sent200 ov, n) /\
    Overview.avgPrice ov =
      (if (0 <? Overview.unitCount ov)%nat
       then Number.div (Overview.totalValue ov)
                       (Number.of_nat (Overview.unitCount ov))
       else Number.zero) /\
    match rawData with
    | JArray ((_ :: _) as items) =>
        Overview.totalValue ov =
          sum_left (List.map price_or_0 (Arr.map toUnit items)) /\
        Overview.unitCount ov = List.length items
    | _ => ov = zero_overview
    end.
Proof.
  destruct rawData as [| b | q | s | | [|item items]];
    try (exists zero_overview; repeat split; reflexivity).
  eexists. split; [reflexivity|].
  cbn [Overview.avgPrice Overview.unitCount Overview.totalValue].
  split; [reflexivity|]. split.
  - apply total_value_sum.
  - apply map_from_length.
Qed.

(* ===================================================================== *)
(** ** GET /api/properties *)
(* ===================================================================== *)

Lemma toLowerCase_empty (s : string) : (Str.toLowerCase s =? "") = (s =? "").
Proof. destruct s; reflexivity. Qed.

Lemma includes_empty_string (t : string) :
  (t =? "") = false -> Str.includes "" t = false.
Proof. destruct t; [discriminate | reflexivity]. Qed.

(** With a non-empty query value the guarded callback never throws and
    computes the area filter. *)
Lemma area_matches_run (a : string) (u : Unit.t) (clock : Clock) (n : nat) :
  (a =? "") = false ->
  area_matches (Some a) u clock n = inr (passes_area (Some a) u, n).
Proof.
  intros Ha. unfold area_matches, passes_area, Str.truthy. rewrite Ha.
  destruct (Unit.subLocality u) as [s|]; [|reflexivity].
  destruct (s =? "") eqn:Es; [|reflexivity].
  apply String.eqb_eq in Es. subst s. cbn [negb orb].
  unfold ret, contains_ignoring_case. cbn [Str.toLowerCase].
  rewrite includes_empty_string; [reflexivity|].
  now rewrite toLowerCase_empty.
Qed.

Lemma filterM_pure {A} (p : A -> M bool) (q : A -> bool) (clock : Clock) :
  (forall x n, p x clock n = inr (q x, n)) ->
  forall l n, Arr.filterM p l clock n = inr (filter q l, n).
Proof.
  intros Hp l. induction l as [|x l IH]; intros n; [reflexivity|].
  cbn [Arr.filterM filter]. unfold bind. rewrite Hp, IH. reflexivity.
Qed.

Lemma filter_twice {A} (p q : A -> bool) (l : list A) :
  filter q (filter p l) = filter (fun x => p x && q x) l.
Proof.
  induction l as [|x l IH]; [reflexivity|]. simpl.
  destruct (p x); simpl; [destruct (q x)|]; now rewrite IH.
Qed.

Lemma status_matches_passes (s : string) (u : Unit.t) :
  (s =? "") = false -> status_matches (Some s) u = passes_status (Some s) u.
Proof. intros Hs. unfold passes_status. now rewrite Hs. Qed.

(** The handler on an array: both filters, then the first 200. *)
Lemma properties_run (items : list Raw.t) (req : Req.t) (clock : Clock) (n : nat) :
  properties (JArray items) req clock n =
  inr (Sent200
         (firstn 200
            (filter (fun u => passes_status (Req.status req) u &&
                              passes_area (Req.area req) u)
                    (Arr.map toUnit items))), n).
Proof.
  unfold properties, as_array, bind, ret, Arr.slice0.
  set (units := Arr.map toUnit items).
  assert (Hs : (if Str.truthy (Req.status req)
                then filter (status_matches (Req.status req)) units else units)
               = filter (passes_status (Req.status req)) units).
  { unfold Str.truthy. destruct (Req.status req) as [s|].
    - destruct (s =? "") eqn:Es; cbn [negb].
      + unfold passes_status. rewrite Es. cbn [orb].
        symmetry. apply forallb_filter_id. now apply forallb_forall.
      + apply filter_ext. intros u. now apply status_matches_passes.
    - symmetry. apply forallb_filter_id. now apply forallb_forall. }
  rewrite Hs. clear Hs.
  set (kept := filter (passes_status (Req.status req)) units).
  assert (Ha : (if Str.truthy (Req.area req)
                then Arr.filterM (area_matches (Req.area req)) kept
                else fun _ n => inr (kept, n)) clock n
               = inr (filter (passes_area (Req.area req)) kept, n)).
  { unfold Str.truthy. destruct (Req.area req) as [a|].
    - destruct (a =? "") eqn:Ea; cbn [negb].
      + unfold passes_area. rewrite Ea. cbn [orb].
        rewrite forallb_filter_id; [reflexivity | now apply forallb_forall].
      + apply filterM_pure. intros u k. now apply area_matches_run.
    - unfold passes_area.
      rewrite forallb_filter_id; [reflexivity | now apply forallb_forall]. }
  rewrite Ha. unfold kept. now rewrite filter_twice.
Qed.

(** C4: GET /api/properties returns, in dataset order, at most the first
    200 of the units that pass both filters; the status filter keeps the
    units whose status equals the query value up to case, the area filter
    those whose subLocality contains the query value up to case. *)
Theorem properties_filters_then_first_200
  (items : list Raw.t) (req : Req.t) (clock : Clock) (n : nat) :
  properties (JArray items) req clock n =
  inr (Sent200
         (firstn 200
            (filter (fun u => passes_status (Req.status req) u &&
                              passes_area (Req.area req) u)
                    (Arr.map toUnit items))), n).
Proof. apply properties_run. Qed.

(** C9: with a non-empty area value the handler answers without a fault,
    no unit of a record that lacks a sub-locality is in the answer, and on
    such a unit the callback of the filter returns false behind its guard
    instead of calling toLowerCase on undefined. *)
Theorem properties_area_skips_missing_subLocality
  (items : list Raw.t) (req : Req.t) (clock : Clock) (n : nat) (a : string) :
  Req.area req = Some a -> a <> "" ->
  (exists body,
     properties (JArray items) req clock n = inr (Sent200 body, n) /\
     (forall u, In u body -> exists s, Unit.subLocality u = Some s) /\
     (forall item index,
         Raw.SUBLOCALITY item = None -> ~ In (toUnit item index) body)) /\
  (forall item index,
      Raw.SUBLOCALITY item = None ->
      area_matches (Req.area req) (toUnit item index) clock n = inr (false, n)) /\
  call_toLowerCase None clock n = inl TypeError.
Proof.
  intros Harea Ha. split; [|split; [|reflexivity]].
  - eexists. split; [apply properties_run|].
    assert (Hin : forall u,
      In u (firstn 200
              (filter (fun u => passes_status (Req.status req) u &&
                                passes_area (Req.area req) u)
                      (Arr.map toUnit items))) ->
      exists s, Unit.subLocality u = Some s).
    { intros u Hu. apply In_firstn in Hu. apply filter_In in Hu.
      destruct Hu as [_ Hu]. apply andb_true_iff in Hu. destruct Hu as [_ Hu].
      rewrite Harea in Hu. unfold passes_area in Hu.
      apply String.eqb_neq in Ha. rewrite Ha in Hu. cbn [orb] in Hu.
      destruct (Unit.subLocality u) as [s|]; [now exists s | discriminate]. }
    split; [exact Hin|].
    intros item index Hnone Hu. destruct (Hin _ Hu) as [s Hs].
    unfold toUnit in Hs; cbn [Unit.subLocality] in Hs. congruence.
  - intros item index Hnone. unfold area_matches, toUnit.
    cbn [Unit.subLocality]. now rewrite Hnone.
Qed.

Lemma properties_area_skips_missing_subLocality_witness :
  (exists body,
     properties (JArray [Sample.bare; Sample.soho])
                (Sample.request (Some "sales") None (Some "oh")) Sample.clock 0
     = inr (Sent200 body, 0) /\
     (forall u, In u body -> exists s, Unit.subLocality u = Some s) /\
     (forall item index,
         Raw.SUBLOCALITY item = None -> ~ In (toUnit item index) body)) /\
  (forall item index,
      Raw.SUBLOCALITY item = None ->
      area_matches (Some "oh") (toUnit item index) Sample.clock 0 = inr (false, 0)) /\
  call_toLowerCase None Sample.clock 0 = inl TypeError.
Proof.
  apply (@properties_area_skips_missing_subLocality
           [Sample.bare; Sample.soho]
           (Sample.request (Some "sales") None (Some "oh")) Sample.clock 0 "oh");
    [reflexivity | discriminate].
Defined.

(* ===================================================================== *)
(** ** Callbacks that read the clock *)
(* ===================================================================== *)

Lemma toISOString_run (t : Z) (clock : Clock) (n : nat) :
  (Z.abs t <= JsDate.maxTime)%Z ->
  JsDate.toISOString t clock n = inr (JsDate.format t, n).
Proof.
  intros H. unfold JsDate.toISOString.
  apply Z.leb_le in H. now rewrite H.
Qed.

(** A callback that succeeds below an index bound, and reads the clock [c]
    times per element, maps a short enough array element by element. *)
Lemma mapM_from_run {A B} (f : A -> nat -> M B)
  (P : nat -> nat -> A -> B -> Prop) (c bound : nat) (clock : Clock) :
  (forall x i n, i < bound ->
     exists y, f x i clock n = inr (y, n + c) /\ P i n x y) ->
  forall l i n, i + List.length l <= bound ->
  exists ys,
    Arr.mapM_from f i l clock n = inr (ys, n + c * List.length l) /\
    List.length ys = List.length l /\
    forall j x, nth_error l j = Some x ->
      exists y, nth_error ys j = Some y /\ P (i + j) (n + c * j) x y.
Proof.
  intros Hf l. induction l as [|x l IH]; intros i n Hb.
  - exists []. cbn [Arr.mapM_from List.length]. unfold ret.
    rewrite Nat.mul_0_r, Nat.add_0_r. repeat split.
    intros [|j] y Hj; discriminate Hj.
  - cbn [List.length] in Hb.
    destruct (Hf x i n ltac:(lia)) as [y [Hy Py]].
    destruct (IH (S i) (n + c) ltac:(lia)) as [ys [Hys [Hlen Pys]]].
    exists (y :: ys). cbn [Arr.mapM_from]. unfold bind. rewrite Hy, Hys.
    unfold ret. cbn [List.length]. split; [f_equal; f_equal; lia|].
    split; [now rewrite Hlen|].
    intros [|j] z Hj; cbn [nth_error] in *.
    + injection Hj as <-. exists y. split; [reflexivity|].
      now rewrite Nat.add_0_r, Nat.mul_0_r, Nat.add_0_r.
    + destruct (Pys j z Hj) as [y' [Hy' Py']]. exists y'. split; [exact Hy'|].
      replace (i + S j) with (S i + j) by lia.
      replace (n + c * S j) with (n + c + c * j) by lia. exact Py'.
Qed.

(** The units of the first [k] records, by index. *)
Lemma units_of_slice_nth (items : list Raw.t) (k j : nat) (item : Raw.t) :
  j < k -> nth_error items j = Some item ->
  nth_error (Arr.map toUnit (Arr.slice0 k items)) j = Some (toUnit item j).
Proof.
  intros Hj Hitem. unfold Arr.map, Arr.slice0.
  rewrite map_from_nth, nth_error_firstn.
  apply Nat.ltb_lt in Hj. now rewrite Hj, Hitem.
Qed.

Lemma units_of_slice_length (items : list Raw.t) (k : nat) :
  List.length (Arr.map toUnit (Arr.slice0 k items)) = Nat.min k (List.length items).
Proof. unfold Arr.map, Arr.slice0. now rewrite map_from_length, length_firstn. Qed.

Lemma units_of_slice_inv (items : list Raw.t) (k j : nat) (u : Unit.t) :
  nth_error (Arr.map toUnit (Arr.slice0 k items)) j = Some u ->
  exists item, nth_error items j = Some item /\ u = toUnit item j /\ j < k.
Proof.
  unfold Arr.map, Arr.slice0. rewrite map_from_nth, nth_error_firstn.
  destruct (j <? k)%nat eqn:E; [|discriminate].
  apply Nat.ltb_lt in E.
  destruct (nth_error items j) as [item|]; [|discriminate].
  intros [= <-]. now exists item.
Qed.

(* ===================================================================== *)
(** ** GET /api/sales/contracts *)
(* ===================================================================== *)

Lemma contract_of_run (clock : Clock) (unit : Unit.t) (index n : nat) :
  clock_in_range clock -> index < 100 ->
  exists c, contract_of unit index clock n = inr (c, n + 4) /\
            contract_terms clock n unit c.
Proof.
  intros Hclock Hindex.
  assert (H0 := Hclock n). assert (H1 := Hclock (S n)).
  assert (H2 := Hclock (S (S n))). assert (H3 := Hclock (S (S (S n)))).
  unfold JsDate.maxTime, JsDate.msPerDay in H0, H1, H2, H3.
  eexists. unfold contract_of, bind, Date_now.
  rewrite !toISOString_run by (unfold JsDate.maxTime; lia).
  unfold ret. split.
  - replace (n + 4) with (S (S (S (S n)))) by lia. reflexivity.
  - unfold contract_terms, JsDate.msPerDay.
    cbn [Contract.unitId Contract.totalPrice Contract.downPayment
         Contract.installmentSchedule].
    replace (n + 1) with (S n) by lia.
    replace (n + 2) with (S (S n)) by lia.
    replace (n + 3) with (S (S (S n))) by lia.
    repeat split.
Qed.

(** C5: one contract per unit of the first 100 records, in order; its
    total price is the unit price, its down payment round(price * 0.2), its
    schedule the three installments round(price * 0.2), round(price * 0.3)
    and round(price * 0.3), due 30, 60 and 90 days after the clock reading
    of the request, each "Pending". *)
Theorem sales_contracts_schedule (items : list Raw.t) (req : Req.t) (clock : Clock) :
  clock_in_range clock ->
  exists contracts,
    sales_contracts (JArray items) req clock 0
      = inr (Sent200 contracts, 4 * List.length contracts) /\
    List.length contracts = Nat.min 100 (List.length items) /\
    forall index item, index < 100 -> nth_error items index = Some item ->
      exists c, nth_error contracts index = Some c /\
                contract_terms clock (4 * index) (toUnit item index) c.
Proof.
  intros Hclock.
  set (units := Arr.map toUnit (Arr.slice0 100 items)).
  assert (Hlen : List.length units = Nat.min 100 (List.length items))
    by apply units_of_slice_length.
  destruct (@mapM_from_run _ _ contract_of
              (fun _ n unit c => contract_terms clock n unit c) 4 100 clock
              (fun x i n Hi => contract_of_run x n Hclock Hi)
              units 0 0 ltac:(lia))
    as [contracts [Hrun [Hl Hnth]]].
  exists contracts. split; [|split].
  - unfold sales_contracts, as_array, bind, ret, Arr.mapM. fold units.
    rewrite Hrun, Hl. reflexivity.
  - now rewrite Hl.
  - intros index item Hindex Hitem.
    apply (Hnth index (toUnit item index)).
    now apply units_of_slice_nth.
Qed.

Lemma sales_contracts_schedule_witness :
  exists contracts,
    sales_contracts (JArray [Sample.soho; Sample.bare])
                    (Sample.request (Some "sales") None None) Sample.clock 0
      = inr (Sent200 contracts, 4 * List.length contracts) /\
    List.length contracts = Nat.min 100 2 /\
    forall index item, index < 100 ->
      nth_error [Sample.soho; Sample.bare] index = Some item ->
      exists c, nth_error contracts index = Some c /\
                contract_terms Sample.clock (4 * index) (toUnit item index) c.
Proof.
  apply (@sales_contracts_schedule [Sample.soho; Sample.bare]
           (Sample.request (Some "sales") None None) Sample.clock).
  intros k. unfold Sample.clock, JsDate.maxTime, JsDate.msPerDay. lia.
Defined.

(* ===================================================================== *)
(** ** GET /api/maintenance/tasks *)
(* ===================================================================== *)

(** A value above 500 is neither a zero nor [NaN]. *)
Lemma gt_truthy (x : number) :
  Number.gt x (Number.of_Z 500) = true -> Number.truthy x = true.
Proof.
  destruct x as [s | s | | s m e]; try reflexivity.
  - destruct s; intros H; vm_compute in H; discriminate H.
  - intros H; vm_compute in H; discriminate H.
Qed.

Lemma above_500_exceeds (v : option number) :
  above_500 v = true <-> exceeds v 500.
Proof.
  unfold above_500, exceeds. destruct v as [x|].
  - split.
    + intros H. apply andb_true_iff in H. exists x. now split.
    + intros [y [[= <-] Hgt]]. apply andb_true_iff. split; [|exact Hgt].
      now apply gt_truthy.
  - split; [discriminate|]. intros [x [H _]]. discriminate H.
Qed.

Lemma task_of_run (clock : Clock) (unit : Unit.t) (index n : nat) :
  clock_in_range clock -> index < 50 ->
  exists t, task_of unit index clock n = inr (t, n + 1) /\
            task_terms index unit t.
Proof.
  intros Hclock Hindex. assert (H0 := Hclock n).
  unfold JsDate.maxTime, JsDate.msPerDay in H0.
  eexists. unfold task_of, bind, Date_now.
  rewrite toISOString_run by (unfold JsDate.maxTime; lia).
  unfold ret. split.
  - replace (n + 1) with (S n) by lia. reflexivity.
  - unfold task_terms.
    cbn [Task.unitId Task.status Task.priority Task.type].
    rewrite <- (gt_price_exceeds (Unit.price unit) 900000).
    rewrite <- (above_500_exceeds (Unit.pricePerSqft unit)).
    unfold not. rewrite <- (Nat.eqb_eq (index mod 3) 0).
    destruct (index mod 3 =? 0)%nat, (Number.gt _ _), (above_500 _);
      repeat split; intros; reflexivity || discriminate || congruence.
Qed.

(** C6: one task per unit of the first 50 records, in order; the task at
    index i is "In Progress" when i mod 3 = 0 and "Open" otherwise, its
    priority is "High" when the unit price exceeds 900000 and "Normal"
    otherwise, its type is "Inspection" when pricePerSqft is present and
    exceeds 500 and "General Repair" otherwise. *)
Theorem maintenance_tasks_fields (items : list Raw.t) (req : Req.t) (clock : Clock) :
  clock_in_range clock ->
  exists tasks,
    maintenance_tasks (JArray items) req clock 0
      = inr (Sent200 tasks, List.length tasks) /\
    List.length tasks = Nat.min 50 (List.length items) /\
    forall index item, index < 50 -> nth_error items index = Some item ->
      exists t, nth_error tasks index = Some t /\
                task_terms index (toUnit item index) t.
Proof.
  intros Hclock.
  set (units := Arr.map toUnit (Arr.slice0 50 items)).
  assert (Hlen : List.length units = Nat.min 50 (List.length items))
    by apply units_of_slice_length.
  destruct (@mapM_from_run _ _ task_of
              (fun i _ unit t => task_terms i unit t) 1 50 clock
              (fun x i n Hi => task_of_run x n Hclock Hi)
              units 0 0 ltac:(lia))
    as [tasks [Hrun [Hl Hnth]]].
  exists tasks. split; [|split].
  - unfold maintenance_tasks, as_array, bind, ret, Arr.mapM. fold units.
    rewrite Hrun, Hl. do 3 f_equal. lia.
  - now rewrite Hl.
  - intros index item Hindex Hitem.
    apply (Hnth index (toUnit item index)).
    now apply units_of_slice_nth.
Qed.

Lemma maintenance_tasks_fields_witness :
  exists tasks,
    maintenance_tasks (JArray [Sample.soho; Sample.bare])
                      (Sample.request (Some "technician") None None) Sample.clock 0
      = inr (Sent200 tasks, List.length tasks) /\
    List.length tasks = Nat.min 50 2 /\
    forall index item, index < 50 ->
      nth_error [Sample.soho; Sample.bare] index = Some item ->
      exists t, nth_error tasks index = Some t /\
                task_terms index (toUnit item index) t.
Proof.
  apply (@maintenance_tasks_fields [Sample.soho; Sample.bare]
           (Sample.request (Some "technician") None None) Sample.clock).
  intros k. unfold Sample.clock, JsDate.maxTime, JsDate.msPerDay. lia.
Defined.

(* ===================================================================== *)
(** ** Own properties of an object *)
(* ===================================================================== *)

Ltac string_cases :=
  repeat match goal with
  | |- context [String.eqb ?a ?b] =>
      let E := fresh "E" in
      destruct (String.eqb a b) eqn:E;
      [apply String.eqb_eq in E | apply String.eqb_neq in E]; subst
  end; cbn [option_map]; try congruence.

Lemma own_set {A} (o : Obj.t A) (key : string) (a : A) (k : string) :
  Obj.own (Obj.set o key a) k = if key =? k then Some a else Obj.own o k.
Proof.
  induction o as [|[k0 b] o IH]; cbn [Obj.set Obj.own].
  - reflexivity.
  - destruct (k0 =? key) eqn:E0;
      [apply String.eqb_eq in E0; subst | apply String.eqb_neq in E0];
      cbn [Obj.own]; [|rewrite IH]; string_cases.
Qed.

Lemma own_alter {A} (f : A -> A) (o : Obj.t A) (key k : string) :
  Obj.own (Obj.alter f key o) k =
  if key =? k then option_map f (Obj.own o k) else Obj.own o k.
Proof.
  induction o as [|[k0 b] o IH]; cbn [Obj.alter Obj.own].
  - now destruct (key =? k).
  - destruct (k0 =? key) eqn:E0;
      [apply String.eqb_eq in E0; subst | apply String.eqb_neq in E0];
      cbn [Obj.own]; [|rewrite IH]; string_cases.
Qed.

Lemma own_None {A} (o : Obj.t A) (k : string) :
  Obj.own o k = None <-> ~ In k (List.map fst o).
Proof.
  induction o as [|[k0 b] o IH]; cbn [Obj.own List.map fst In].
  - tauto.
  - destruct (k0 =? k) eqn:E;
      [apply String.eqb_eq in E; subst | apply String.eqb_neq in E].
    + split; [discriminate | tauto].
    + rewrite IH. tauto.
Qed.

Lemma own_In {A} (o : Obj.t A) (k : string) (a : A) :
  NoDup (List.map fst o) -> (Obj.own o k = Some a <-> In (k, a) o).
Proof.
  induction o as [|[k0 b] o IH]; cbn [Obj.own List.map fst In]; intros Hnd.
  - split; [discriminate | tauto].
  - inversion Hnd as [|? ? Hnotin Hnd']; subst.
    destruct (k0 =? k) eqn:E;
      [apply String.eqb_eq in E; subst | apply String.eqb_neq in E].
    + split.
      * intros [= <-]. now left.
      * intros [[= <-] | Hin]; [reflexivity|].
        exfalso. apply Hnotin. apply in_map_iff. now exists (k, a).
    + rewrite (IH Hnd'). split; [tauto|].
      intros [[= ? ?] | Hin]; [congruence | exact Hin].
Qed.

Lemma keys_alter {A} (f : A -> A) (o : Obj.t A) (key : string) :
  List.map fst (Obj.alter f key o) = List.map fst o.
Proof.
  induction o as [|[k0 b] o IH]; cbn [Obj.alter List.map fst]; [reflexivity|].
  destruct (k0 =? key); cbn [List.map fst]; [reflexivity | now rewrite IH].
Qed.

Lemma keys_set_new {A} (o : Obj.t A) (key : string) (a : A) :
  Obj.own o key = None -> List.map fst (Obj.set o key a) = List.map fst o ++ [key].
Proof.
  induction o as [|[k0 b] o IH]; cbn [Obj.set Obj.own List.map fst]; [reflexivity|].
  destruct (k0 =? key); [discriminate|].
  intros H. cbn [List.map fst app]. now rewrite (IH H).
Qed.

(* ===================================================================== *)
(** ** GET /api/dashboard/overview: the areas *)
(* ===================================================================== *)

Lemma units_of_area_snoc (name : string) (units : list Unit.t) (u : Unit.t) :
  units_of_area name (units ++ [u]) =
  units_of_area name units ++ (if area_of u =? name then [u] else []).
Proof. unfold units_of_area. now rewrite filter_app. Qed.

Lemma units_of_area_other (name : string) (units : list Unit.t) (u : Unit.t) :
  area_of u <> name -> units_of_area name (units ++ [u]) = units_of_area name units.
Proof.
  intros H. rewrite units_of_area_snoc.
  apply String.eqb_neq in H. rewrite H. apply app_nil_r.
Qed.

Lemma units_of_area_same (units : list Unit.t) (u : Unit.t) :
  units_of_area (area_of u) (units ++ [u]) = units_of_area (area_of u) units ++ [u].
Proof. rewrite units_of_area_snoc. now rewrite String.eqb_refl. Qed.

Lemma totals_other (units : list Unit.t) (u : Unit.t) (name : string)
  (item : AreaTotals.t) :
  area_of u <> name -> totals_of_area units name item ->
  totals_of_area (units ++ [u]) name item.
Proof.
  intros Hne. unfold totals_of_area. now rewrite units_of_area_other by exact Hne.
Qed.

Lemma totals_add (units : list Unit.t) (u : Unit.t) (item : AreaTotals.t) :
  totals_of_area units (area_of u) item ->
  totals_of_area (units ++ [u]) (area_of u) (add_unit u item).
Proof.
  unfold totals_of_area. intros (Hname & Hinh & _ & Hcount & Htotal).
  rewrite units_of_area_same. cbn [add_unit AreaTotals.name AreaTotals.count
                                   AreaTotals.totalPrice].
  repeat split; try assumption.
  - intros H. now apply app_eq_nil in H.
  - rewrite Hcount, length_app. reflexivity.
  - rewrite Htotal, map_app. cbn [List.map].
    now rewrite sum_left_snoc, or_zero_price.
Qed.

Lemma totals_new (units : list Unit.t) (u : Unit.t) :
  Obj.inherited (area_of u) = false ->
  units_of_area (area_of u) units = [] ->
  totals_of_area (units ++ [u]) (area_of u)
    (add_unit u {| AreaTotals.name := area_of u;
                   AreaTotals.totalPrice := Number.zero;
                   AreaTotals.count := 0 |}).
Proof.
  intros Hinh Hnil. unfold totals_of_area.
  rewrite units_of_area_same, Hnil.
  cbn [add_unit AreaTotals.name AreaTotals.count AreaTotals.totalPrice app
       List.length List.map].
  repeat split; try assumption; try discriminate.
  now rewrite or_zero_price.
Qed.

Lemma areaMap_step_inv (units : list Unit.t) (areaMap : Obj.t AreaTotals.t)
  (u : Unit.t) :
  areaMap_inv units areaMap ->
  areaMap_inv (units ++ [u]) (areaMap_step areaMap u).
Proof.
  intros Hinv name. unfold areaMap_step, Obj.get.
  assert (Ha := Hinv (area_of u)). assert (Hn := Hinv name).
  destruct (Obj.own areaMap (area_of u)) as [item|] eqn:Eown.
  - rewrite own_alter.
    destruct (area_of u =? name) eqn:E;
      [apply String.eqb_eq in E; subst name | apply String.eqb_neq in E].
    + rewrite Eown. cbn [option_map]. now apply totals_add.
    + destruct (Obj.own areaMap name).
      * now apply totals_other.
      * destruct Hn as [Hn | Hn]; [now left | right].
        now rewrite units_of_area_other by exact E.
  - destruct (Obj.inherited (area_of u)) eqn:Einh.
    + rewrite own_alter.
      destruct (area_of u =? name) eqn:E;
        [apply String.eqb_eq in E; subst name | apply String.eqb_neq in E].
      * rewrite Eown. cbn [option_map]. now left.
      * destruct (Obj.own areaMap name).
        -- now apply totals_other.
        -- destruct Hn as [Hn | Hn]; [now left | right].
           now rewrite units_of_area_other by exact E.
    + rewrite own_alter, own_set.
      destruct (area_of u =? name) eqn:E;
        [apply String.eqb_eq in E; subst name | apply String.eqb_neq in E].
      * cbn [option_map]. apply totals_new; [exact Einh|].
        destruct Ha as [Ha | Ha]; [congruence | exact Ha].
      * destruct (Obj.own areaMap name).
        -- now apply totals_other.
        -- destruct Hn as [Hn | Hn]; [now left | right].
           now rewrite units_of_area_other by exact E.
Qed.

Lemma areaMap_step_keys (areaMap : Obj.t AreaTotals.t) (u : Unit.t) :
  NoDup (List.map fst areaMap) -> NoDup (List.map fst (areaMap_step areaMap u)).
Proof.
  intros Hnd. unfold areaMap_step, Obj.get. rewrite keys_alter.
  destruct (Obj.own areaMap (area_of u)) eqn:Eown; [exact Hnd|].
  destruct (Obj.inherited (area_of u)); [exact Hnd|].
  rewrite keys_set_new by exact Eown.
  apply NoDup_app; [exact Hnd | repeat constructor; intros [] |].
  intros k Hk [<- | []]. now apply own_None in Eown.
Qed.

(** After the loop every own property of [areaMap] holds the totals of
    its area, and the names are distinct. *)
Lemma areaMap_loop (units : list Unit.t) :
  areaMap_inv units (fold_left areaMap_step units []) /\
  NoDup (List.map fst (fold_left areaMap_step units [])).
Proof.
  induction units as [|u units [IHinv IHnd]] using rev_ind.
  - split; [|constructor]. intros name. now right.
  - rewrite fold_left_app. cbn [fold_left]. split.
    + now apply areaMap_step_inv.
    + now apply areaMap_step_keys.
Qed.

(** *** Sorting and enumeration order *)

Lemma insert_perm {A} (compare : A -> A -> Z) (x : A) (l : list A) :
  Permutation (Arr.insert compare x l) (x :: l).
Proof.
  induction l as [|y l IH]; cbn [Arr.insert]; [reflexivity|].
  destruct (compare x y <=? 0)%Z; [reflexivity|].
  rewrite IH. apply perm_swap.
Qed.

Lemma sort_perm {A} (compare : A -> A -> Z) (l : list A) :
  Permutation (Arr.sort compare l) l.
Proof.
  unfold Arr.sort. induction l as [|x l IH]; cbn [fold_right]; [reflexivity|].
  rewrite insert_perm. now constructor.
Qed.

Lemma partition_perm {A} (p : A -> bool) (l : list A) :
  Permutation (filter p l ++ filter (fun x => negb (p x)) l) l.
Proof.
  induction l as [|x l IH]; cbn [filter]; [reflexivity|].
  destruct (p x); cbn [negb app].
  - now constructor.
  - rewrite <- Permutation_middle. now constructor.
Qed.

Lemma ordered_perm {A} (o : Obj.t A) : Permutation (Obj.ordered o) o.
Proof.
  unfold Obj.ordered. rewrite sort_perm. apply partition_perm.
Qed.

Lemma insert_by_count_sorted (x : AreaEntry.t) (l : list AreaEntry.t) :
  StronglySorted count_ge l ->
  StronglySorted count_ge (Arr.insert by_count_desc x l).
Proof.
  induction 1 as [|y l Hl IH Hy]; cbn [Arr.insert].
  - repeat constructor.
  - unfold by_count_desc at 1.
    destruct (Z.leb_spec (Z.of_nat (AreaEntry.count y) - Z.of_nat (AreaEntry.count x)) 0)
      as [Hle | Hgt].
    + constructor; [now constructor|].
      constructor; [unfold count_ge; lia|].
      eapply Forall_impl; [|exact Hy]. intros z Hz. unfold count_ge in *. lia.
    + constructor; [exact IH|].
      eapply Permutation_Forall; [symmetry; apply insert_perm|].
      constructor; [unfold count_ge; lia | exact Hy].
Qed.

Lemma sort_by_count_sorted (l : list AreaEntry.t) :
  StronglySorted count_ge (Arr.sort by_count_desc l).
Proof.
  unfold Arr.sort. induction l as [|x l IH]; cbn [fold_right].
  - constructor.
  - now apply insert_by_count_sorted.
Qed.

Lemma StronglySorted_app {A} (R : A -> A -> Prop) (l1 l2 : list A) :
  StronglySorted R (l1 ++ l2) ->
  StronglySorted R l1 /\ forall a b, In a l1 -> In b l2 -> R a b.
Proof.
  induction l1 as [|x l1 IH]; cbn [app]; intros H.
  - split; [constructor | intros a b []].
  - inversion H as [|? ? Hs Hx]; subst. destruct (IH Hs) as [Hs1 Hcross].
    apply Forall_app in Hx. destruct Hx as [Hx1 Hx2].
    split; [now constructor|].
    intros a b [<- | Ha] Hb; [|now apply Hcross].
    rewrite Forall_forall in Hx2. now apply Hx2.
Qed.

Lemma NoDup_firstn {A} (k : nat) (l : list A) : NoDup l -> NoDup (firstn k l).
Proof.
  intros H. rewrite <- (firstn_skipn k l) in H.
  now apply NoDup_app_remove_r in H.
Qed.

(** *** From the totals of an area to its element of byArea *)

Lemma area_entry_of_totals (units : list Unit.t) (name : string)
  (item : AreaTotals.t) :
  totals_of_area units name item ->
  AreaEntry.name (area_entry item) = name /\
  entry_of_area units (area_entry item).
Proof.
  intros (Hname & _ & Hne & Hcount & Htotal).
  unfold entry_of_area, area_entry.
  cbn [AreaEntry.name AreaEntry.count AreaEntry.avgPrice].
  rewrite Hname, Hcount, Htotal.
  assert (Hlen : List.length (units_of_area name units) <> 0)
    by (destruct (units_of_area name units); [congruence | discriminate]).
  apply Nat.eqb_neq in Hlen. rewrite Hlen. cbn [negb].
  repeat split; assumption.
Qed.

(** [Math.round] of a finite number is an integer, and [Math.round] keeps
    an infinity and [NaN]. *)
Lemma Math_round_integer (x : number) :
  Number.is_finite x = true -> Number.is_integer (Number.Math_round x).
Proof.
  destruct x as [s | s | | s m e]; cbn [Number.is_finite]; try discriminate.
  - intros _. exact I.
  - intros _. unfold Number.Math_round.
    destruct (0 <=? e)%Z eqn:E.
    + left. now apply Z.leb_le.
    + apply Z.leb_gt in E. unfold Number.integer.
      set (a := (Z.pos m + 2 ^ (- e - 1) - (if s then 1 else 0))%Z).
      set (n := (a / 2 ^ (- e))%Z).
      assert (Ha : (0 <= a)%Z).
      { assert (0 <= 2 ^ (- e - 1))%Z by (apply Z.pow_nonneg; lia).
        unfold a. destruct s; lia. }
      assert (Hn : (0 <= n)%Z).
      { apply Z.div_pos; [exact Ha|]. apply Z.pow_pos_nonneg; lia. }
      destruct (n =? 0)%Z eqn:En; [exact I|].
      apply Z.eqb_neq in En. right.
      set (k := Z.max 0 (52 - Z.log2 n)).
      assert (Hk : (0 < 2 ^ k)%Z) by (apply Z.pow_pos_nonneg; lia).
      rewrite Z2Pos.id by nia.
      rewrite Z.opp_involutive. apply Z.mod_mul. lia.
Qed.

Lemma Math_round_not_finite (x : number) :
  Number.is_finite x = false -> Number.Math_round x = x.
Proof. destruct x; try reflexivity; discriminate. Qed.

Lemma values_of_loop (units : list Unit.t) (item : AreaTotals.t) :
  In item (Obj.values (fold_left areaMap_step units [])) ->
  totals_of_area units (AreaTotals.name item) item.
Proof.
  destruct (areaMap_loop units) as [Hinv Hnd].
  unfold Obj.values. intros Hin. apply in_map_iff in Hin.
  destruct Hin as [[name item'] [Heq Hin]]. cbn [snd] in Heq. subst item'.
  apply (Permutation_in _ (ordered_perm _)) in Hin.
  apply (own_In _ _ _ Hnd) in Hin.
  specialize (Hinv name). rewrite Hin in Hinv.
  destruct Hinv as [Hname ?]. rewrite Hname. now split.
Qed.

Lemma by_area_entries (units : list Unit.t) (e : AreaEntry.t) :
  In e (by_area units) ->
  Obj.inherited (AreaEntry.name e) = false /\ entry_of_area units e.
Proof.
  unfold by_area, Arr.slice0. intros Hin. apply In_firstn in Hin.
  apply (Permutation_in _ (sort_perm _ _)) in Hin.
  apply in_map_iff in Hin. destruct Hin as [item [<- Hin]].
  apply values_of_loop in Hin.
  destruct (area_entry_of_totals Hin) as [Hname Hentry].
  split; [|exact Hentry].
  rewrite Hname. apply Hin.
Qed.

Lemma by_area_names (units : list Unit.t) :
  Permutation
    (List.map AreaEntry.name
       (Arr.sort by_count_desc
          (List.map area_entry (Obj.values (fold_left areaMap_step units [])))))
    (List.map fst (fold_left areaMap_step units [])).
Proof.
  destruct (areaMap_loop units) as [Hinv Hnd].
  set (areaMap := fold_left areaMap_step units []) in *.
  rewrite sort_perm. unfold Obj.values. rewrite !map_map.
  rewrite (Permutation_map _ (ordered_perm areaMap)).
  erewrite map_ext_in; [reflexivity|].
  intros [name item] Hin. cbn [fst snd].
  apply (own_In _ _ _ Hnd) in Hin.
  specialize (Hinv name). rewrite Hin in Hinv.
  now destruct (area_entry_of_totals Hinv).
Qed.

Lemma by_area_has_area (units : list Unit.t) (u : Unit.t) :
  In u units -> Obj.inherited (area_of u) = false ->
  exists e,
    In e (Arr.sort by_count_desc
            (List.map area_entry (Obj.values (fold_left areaMap_step units [])))) /\
    AreaEntry.name e = area_of u /\
    AreaEntry.count e = List.length (units_of_area (area_of u) units).
Proof.
  intros Hu Hinh. destruct (areaMap_loop units) as [Hinv Hnd].
  set (areaMap := fold_left areaMap_step units []) in *.
  assert (Hown := Hinv (area_of u)).
  destruct (Obj.own areaMap (area_of u)) as [item|] eqn:Eown.
  - exists (area_entry item).
    destruct (area_entry_of_totals Hown) as [Hname (_ & Hcount & _)].
    split; [|split; [exact Hname | now rewrite Hcount, Hname]].
    apply (Permutation_in _ (Permutation_sym (sort_perm _ _))).
    apply in_map. unfold Obj.values. apply in_map_iff.
    exists (area_of u, item). split; [reflexivity|].
    apply (Permutation_in _ (Permutation_sym (ordered_perm _))).
    now apply (own_In _ _ _ Hnd).
  - exfalso. destruct Hown as [Hown | Hown]; [congruence|].
    assert (Hin : In u (units_of_area (area_of u) units)).
    { apply filter_In. split; [exact Hu | apply String.eqb_refl]. }
    rewrite Hown in Hin. exact Hin.
Qed.

(** X10: What byArea is on every dataset: at most 10 elements, in descending
    order of count, one per area name, each describing the units of its
    area; and every area whose name is not inherited from
    [Object.prototype] is among them unless ten areas with at least as many
    units are. *)
Theorem by_area_groups (units : list Unit.t) :
  List.length (by_area units) <= 10 /\
  StronglySorted count_ge (by_area units) /\
  NoDup (List.map AreaEntry.name (by_area units)) /\
  (forall e, In e (by_area units) ->
     Obj.inherited (AreaEntry.name e) = false /\ entry_of_area units e) /\
  (forall u, In u units -> Obj.inherited (area_of u) = false ->
     (exists e, In e (by_area units) /\ AreaEntry.name e = area_of u) \/
     (List.length (by_area units) = 10 /\
      forall e, In e (by_area units) ->
        List.length (units_of_area (area_of u) units) <= AreaEntry.count e)).
Proof.
  split; [apply firstn_le_length|].
  pose proof (sort_by_count_sorted
                (List.map area_entry (Obj.values (fold_left areaMap_step units []))))
    as Hsorted.
  pose proof (by_area_names units) as Hnames.
  unfold by_area, Arr.slice0.
  set (sorted := Arr.sort by_count_desc _) in *.
  rewrite <- (firstn_skipn 10 sorted) in Hsorted.
  apply StronglySorted_app in Hsorted. destruct Hsorted as [Hfirst Hcross].
  split; [exact Hfirst|]. split; [|split].
  - rewrite <- firstn_map. apply NoDup_firstn.
    apply (Permutation_NoDup (Permutation_sym Hnames)).
    apply areaMap_loop.
  - intros e He. now apply by_area_entries.
  - intros u Hu Hinh.
    destruct (@by_area_has_area units u Hu Hinh) as [e [He [Hname Hcount]]].
    fold sorted in He. rewrite <- (firstn_skipn 10 sorted) in He.
    apply in_app_or in He. destruct He as [He | He].
    + left. now exists e.
    + right. split.
      * apply firstn_length_le.
        destruct (Nat.le_gt_cases 10 (List.length sorted)) as [Hlen | Hlen];
          [exact Hlen|].
        rewrite skipn_all2 in He by lia. destruct He.
      * intros e' He'. rewrite <- Hcount. now apply (Hcross e' e).
Qed.

Lemma by_area_groups_witness :
  (exists e, In e (by_area [toUnit Sample.soho 0; toUnit Sample.bare 1]) /\
             AreaEntry.name e = "SoHo") \/
  (List.length (by_area [toUnit Sample.soho 0; toUnit Sample.bare 1]) = 10 /\
   forall e, In e (by_area [toUnit Sample.soho 0; toUnit Sample.bare 1]) ->
     List.length (units_of_area "SoHo" [toUnit Sample.soho 0; toUnit Sample.bare 1])
     <= AreaEntry.count e).
Proof.
  apply (proj2 (proj2 (proj2 (proj2
           (by_area_groups [toUnit Sample.soho 0; toUnit Sample.bare 1]))))
           (toUnit Sample.soho 0)).
  - now left.
  - reflexivity.
Defined.

(** C3: byArea does not group every unit by its subLocality: a unit whose
    subLocality is the name of a property inherited from
    [Object.prototype], such as "constructor", finds a truthy
    [areaMap[area]], so no entry is created and the unit is counted in no
    element of byArea. *)
Theorem by_area_drops_inherited_name (clock : Clock) (status area : option string) :
  serve (GET_dashboard_overview (JArray [Sample.shadowed])) clock
        (Sample.request (Some "admin") status area)
  = Status200 {| Overview.totalValue := Number.of_Z 100;
                 Overview.unitCount := 1;
                 Overview.avgPrice := Number.of_Z 100;
                 Overview.byArea := [] |}.
Proof. reflexivity. Qed.

(* ===================================================================== *)
(** ** GET /api/dashboard/overview: the two averages *)
(* ===================================================================== *)

Lemma dashboard_overview_run (rawData : Json) (req : Req.t) (clock : Clock) (n : nat) :
  exists ov,
    dashboard_overview rawData req clock n = inr (Sent200 ov, n) /\
    Overview.unitCount ov = List.length (dataset_units rawData) /\
    Overview.totalValue ov = total_value (dataset_units rawData) /\
    Overview.avgPrice ov =
      (if (0 <? Overview.unitCount ov)%nat
       then Number.div (Overview.totalValue ov)
                       (Number.of_nat (Overview.unitCount ov))
       else Number.zero) /\
    Overview.byArea ov = by_area (dataset_units rawData).
Proof.
  destruct rawData as [| b | q | s | | [|item items]];
    try (exists zero_overview; repeat split; reflexivity).
  eexists. split; [reflexivity|]. repeat split.
Qed.

(** C10, as stated, fails: the avgPrice of an element of byArea is not
    always an integer.  Two units of one area priced 1e308 each add up to
    Infinity, the quotient by the count is Infinity, and Math.round returns
    it as it is. *)
Lemma by_area_average_may_be_infinite :
  exists (ov : Overview.t) (e : AreaEntry.t),
    dashboard_overview (JArray Sample.huge) (Sample.request None None None)
                       Sample.clock 0 = inr (Sent200 ov, 0) /\
    In e (Overview.byArea ov) /\
    AreaEntry.avgPrice e = S754_infinity false /\
    ~ Number.is_integer (AreaEntry.avgPrice e).
Proof.
  exists {| Overview.totalValue := S754_infinity false;
            Overview.unitCount := 2;
            Overview.avgPrice := S754_infinity false;
            Overview.byArea :=
              [ {| AreaEntry.name := "SoHo";
                   AreaEntry.avgPrice := S754_infinity false;
                   AreaEntry.count := 2 |} ] |}.
  eexists. split; [vm_compute; reflexivity|].
  split; [left; reflexivity|].
  split; [reflexivity|]. intros H. exact H.
Qed.

(** C10 (amended): every element of byArea carries
    Math.round(sum of the prices of its area / count), where the sum and
    the quotient are doubles: an integer when that quotient is finite, and
    the quotient itself (an infinity or NaN) when it is not; the top-level
    avgPrice is the quotient totalValue / unitCount, not rounded to an
    integer; on the same units the two figures can differ. *)
Theorem overview_two_averages :
  (forall (rawData : Json) (req : Req.t) (clock : Clock) (n : nat),
     exists ov,
       dashboard_overview rawData req clock n = inr (Sent200 ov, n) /\
       Overview.avgPrice ov =
         (if (0 <? Overview.unitCount ov)%nat
          then average_price (dataset_units rawData)
          else Number.zero) /\
       Forall (fun e =>
                 let group := units_of_area (AreaEntry.name e) (dataset_units rawData) in
                 let quotient :=
                   Number.div (sum_left (List.map price_or_0 group))
                              (Number.of_nat (AreaEntry.count e)) in
                 AreaEntry.count e = List.length group /\
                 AreaEntry.avgPrice e = Number.Math_round quotient /\
                 if Number.is_finite quotient
                 then Number.is_integer (AreaEntry.avgPrice e)
                 else AreaEntry.avgPrice e = quotient)
              (Overview.byArea ov)) /\
  (exists (req : Req.t) (clock : Clock) (ov : Overview.t) (e : AreaEntry.t),
     dashboard_overview (JArray Sample.pair) req clock 0 = inr (Sent200 ov, 0) /\
     Overview.byArea ov = [e] /\
     AreaEntry.count e = Overview.unitCount ov /\
     Overview.avgPrice ov = Number.ratio 3 2 /\
     AreaEntry.avgPrice e = Number.of_Z 2 /\
     AreaEntry.avgPrice e <> Overview.avgPrice ov).
Proof.
  split.
  - intros rawData req clock n.
    destruct (dashboard_overview_run rawData req clock n)
      as [ov (Hrun & Hcount & Htotal & Havg & Hby)].
    exists ov. split; [exact Hrun|]. split.
    + rewrite Havg. destruct (0 <? Overview.unitCount ov)%nat eqn:E; [|reflexivity].
      rewrite Htotal, total_value_sum, Hcount. reflexivity.
    + rewrite Hby. apply Forall_forall. intros e He.
      apply by_area_entries in He. destruct He as [_ (Hne & Hc & Ha)].
      cbv zeta. rewrite Hc. split; [reflexivity|]. split; [exact Ha|].
      rewrite Ha.
      destruct (Number.is_finite (Number.div _ _)) eqn:Hfin.
      * now apply Math_round_integer.
      * now apply Math_round_not_finite.
  - exists (Sample.request None None None), Sample.clock.
    exists {| Overview.totalValue := Number.of_Z 3;
              Overview.unitCount := 2;
              Overview.avgPrice := Number.ratio 3 2;
              Overview.byArea :=
                [ {| AreaEntry.name := "SoHo";
                     AreaEntry.avgPrice := Number.of_Z 2;
                     AreaEntry.count := 2 |} ] |}.
    eexists. split; [vm_compute; reflexivity|].
    repeat split; try reflexivity.
    cbn [AreaEntry.avgPrice Overview.avgPrice].
    intros H. vm_compute in H. discriminate H.
Qed.

(* ===================================================================== *)
(** ** The examples of the specification *)
(* ===================================================================== *)

(** Double arithmetic as the handlers meet it: 0.1 + 0.2 is not 0.3,
    1e308 + 1e308 overflows, 250100 / 500.2 is 500, Math.round takes a tie
    up (2.5 to 3, -2.5 to -2, -0.5 to -0), and the 20 percent share of
    7.499999999999999 is the double 1.5, which rounds to 2. *)
Example double_arithmetic :
  Number.add (Number.ratio 1 10) (Number.ratio 2 10) <> Number.ratio 3 10 /\
  Number.add (Number.of_Z (10 ^ 308)) (Number.of_Z (10 ^ 308)) = S754_infinity false /\
  Number.div (Number.of_Z 250100) (Number.ratio 5002 10) = Number.of_Z 500 /\
  Number.Math_round (Number.ratio 5 2) = Number.of_Z 3 /\
  Number.Math_round (Number.ratio (-5) 2) = Number.of_Z (-2) /\
  Number.Math_round (Number.ratio (-1) 2) = S754_zero true /\
  Number.mul (Number.ratio 7499999999999999 1000000000000000) (Number.ratio 2 10)
    = Number.ratio 3 2 /\
  Number.Math_round (Number.ratio 3 2) = Number.of_Z 2.
Proof.
  split; [intros H; vm_compute in H; discriminate H|].
  repeat split; vm_compute; reflexivity.
Qed.

(** A record priced 250100 with 500.2 square feet: the quotient rounds to
    the double 500, which does not exceed 500, so its task is a
    "General Repair". *)
Example task_at_the_bound_of_500 :
  let item :=
    {| Raw.LISTINGID := None; Raw.PROJECTNAME := None; Raw.FULLADDRESS := None;
       Raw.SUBLOCALITY := None; Raw.PRICE := Some (Number.of_Z 250100);
       Raw.PROPERTYSQFT := Some (Number.ratio 5002 10); Raw.STATUS := None |} in
  Unit.pricePerSqft (toUnit item 0) = Some (Number.of_Z 500) /\
  exists t, task_of (toUnit item 0) 0 Sample.clock 0 = inr (t, 1) /\
            Task.type t = "General Repair".
Proof.
  split; [vm_compute; reflexivity|].
  eexists. split; vm_compute; reflexivity.
Qed.

(** Three records priced 100, 200 and 300 without a sub-locality. *)
Example overview_of_three_records :
  serve (GET_dashboard_overview (JArray Sample.three)) Sample.clock
        (Sample.request None None None)
  = Status200 {| Overview.totalValue := Number.of_Z 600;
                 Overview.unitCount := 3;
                 Overview.avgPrice := Number.of_Z 200;
                 Overview.byArea :=
                   [ {| AreaEntry.name := "Unknown";
                        AreaEntry.avgPrice := Number.of_Z 200;
                        AreaEntry.count := 3 |} ] |}.
Proof. reflexivity. Qed.

(** The three roles on the sales and maintenance routes. *)
Example roles_on_the_routes :
  let answers {A} (route : Json -> Req.t -> M (Response (list A))) (x_role : string) :=
    match serve (route (JArray [])) Sample.clock
                (Sample.request (Some x_role) None None) with
    | Status200 _ => 200
    | Status403 _ _ => 403
    | Status500 _ => 500
    end in
  answers GET_maintenance_tasks "sales" = 403 /\
  answers GET_properties "sales" = 200 /\
  answers GET_sales_contracts "sales" = 200 /\
  answers GET_properties "technician" = 403 /\
  answers GET_sales_contracts "technician" = 403 /\
  answers GET_maintenance_tasks "technician" = 200 /\
  answers GET_properties "Admin" = 200 /\
  answers GET_sales_contracts "ADMIN" = 200 /\
  answers GET_maintenance_tasks "admin" = 200 /\
  answers GET_property_insights "admin" = 200 /\
  answers GET_property_insights "guest" = 403 /\
  answers GET_property_insights "__proto__" = 500.
Proof. repeat split. Qed.

(** An ISO timestamp. *)
Example toISOString_of_a_reading :
  JsDate.toISOString 1700000000000 Sample.clock 0
  = inr ("2023-11-14T22:13:20.000Z", 0).
Proof. reflexivity. Qed.

(* ===================================================================== *)
(** ** More on the access gate *)
(* ===================================================================== *)

Lemma inherited_names (role : string) :
  role = "constructor" \/ role = "__proto__" -> Obj.inherited role = true.
Proof. intros [-> | ->]; reflexivity. Qed.

(** X2: The gate itself throws on exactly two resolved roles: with a handler
    that does not throw a TypeError, the chain ends in a TypeError if and
    only if the lowercased role is "constructor" or "__proto__". *)
Theorem gate_throws_on_two_roles {A} (requiredPermission : string) (req : Req.t)
  (next : Req.t -> M (Response A)) (clock : Clock) (n : nat) :
  (forall r, next r clock n <> inl TypeError) ->
  let role := Str.toLowerCase (Str.or_lit (Req.x_role req) "sales") in
  authorize requiredPermission req next clock n = inl TypeError <->
  role = "constructor" \/ role = "__proto__".
Proof.
  intros Hnext role. split.
  - intros Hthrow. destruct (Obj.inherited role) eqn:Einh.
    + now apply inherited_lowercase.
    + exfalso. unfold authorize in Hthrow. fold role in Hthrow.
      rewrite (permissions_of_table _ Einh) in Hthrow.
      destruct (Arr.includes (permission_table role) requiredPermission);
        cbn [negb] in Hthrow; [|discriminate Hthrow].
      now apply (Hnext _ Hthrow).
  - intros Hrole. unfold authorize. fold role.
    now rewrite (permissions_of_inherited _ (inherited_names Hrole)).
Qed.

Lemma gate_throws_on_two_roles_witness :
  authorize "view_sales" (Sample.request (Some "Constructor") None None)
            (fun _ => ret (Sent200 tt)) Sample.clock 0 = inl TypeError <->
  "constructor" = "constructor" \/ "constructor" = "__proto__".
Proof.
  apply (@gate_throws_on_two_roles unit "view_sales"
           (Sample.request (Some "Constructor") None None)
           (fun _ => ret (Sent200 tt)) Sample.clock 0).
  intros r. discriminate.
Defined.

(** X3: A request without the header, or with an empty one, is served as the
    role "sales": the overview and sales permissions pass to the handler
    with that user attached, every other permission is answered 403 with
    the role "sales". *)
Theorem gate_defaults_to_sales {A} (requiredPermission : string) (req : Req.t)
  (next : Req.t -> M (Response A)) (clock : Clock) (n : nat) :
  Req.x_role req = None \/ Req.x_role req = Some "" ->
  authorize requiredPermission req next clock n =
    if Arr.includes ["view_overview"; "view_sales"] requiredPermission
    then next (Req.with_user req
                 {| role := "sales";
                    permissions := ["view_overview"; "view_sales"] |}) clock n
    else inr (Sent403 "Forbidden: insufficient permissions" "sales", n).
Proof.
  intros Hrole. unfold authorize.
  replace (Str.or_lit (Req.x_role req) "sales") with "sales"
    by (destruct Hrole as [-> | ->]; reflexivity).
  change (permissions_of (Str.toLowerCase "sales"))
    with (Obj.Own (A:=list string) ["view_overview"; "view_sales"]).
  cbv beta iota.
  destruct (Arr.includes ["view_overview"; "view_sales"] requiredPermission);
    reflexivity.
Qed.

Lemma gate_defaults_to_sales_witness :
  authorize "view_maintenance" (Sample.request (Some "") None None)
            (fun _ => ret (Sent200 tt)) Sample.clock 0
  = inr (Sent403 "Forbidden: insufficient permissions" "sales", 0).
Proof.
  apply (@gate_defaults_to_sales unit "view_maintenance"
           (Sample.request (Some "") None None)).
  now right.
Defined.

Lemma authorize_same_role {A} (requiredPermission : string) (req1 req2 : Req.t)
  (handler : Req.t -> M (Response A)) (clock : Clock) (n : nat) :
  Str.toLowerCase (Str.or_lit (Req.x_role req1) "sales") =
  Str.toLowerCase (Str.or_lit (Req.x_role req2) "sales") ->
  (forall u, handler (Req.with_user req1 u) clock n =
             handler (Req.with_user req2 u) clock n) ->
  authorize requiredPermission req1 handler clock n =
  authorize requiredPermission req2 handler clock n.
Proof.
  intros Hrole Hh. unfold authorize. rewrite Hrole.
  destruct (permissions_of _); try reflexivity.
  destruct (Arr.includes a requiredPermission); cbn [negb]; [apply Hh | reflexivity].
Qed.

(** X4: The routes read a request only through its role and, for
    /api/properties, its two query values: two requests that resolve to the
    same lowercased role get the same answer from the overview, insights,
    contracts and tasks routes, and from the properties route when their
    status and area values agree.  In particular [req.user] is never
    read. *)
Theorem routes_read_role_and_query (rawData : Json) (req1 req2 : Req.t)
  (clock : Clock) (n : nat) :
  Str.toLowerCase (Str.or_lit (Req.x_role req1) "sales") =
  Str.toLowerCase (Str.or_lit (Req.x_role req2) "sales") ->
  GET_dashboard_overview rawData req1 clock n
    = GET_dashboard_overview rawData req2 clock n /\
  GET_property_insights rawData req1 clock n
    = GET_property_insights rawData req2 clock n /\
  GET_sales_contracts rawData req1 clock n
    = GET_sales_contracts rawData req2 clock n /\
  GET_maintenance_tasks rawData req1 clock n
    = GET_maintenance_tasks rawData req2 clock n /\
  (Req.status req1 = Req.status req2 -> Req.area req1 = Req.area req2 ->
   GET_properties rawData req1 clock n = GET_properties rawData req2 clock n).
Proof.
  intros Hrole.
  unfold GET_dashboard_overview, GET_property_insights, GET_sales_contracts,
    GET_maintenance_tasks, GET_properties, app_get.
  repeat split; try (apply authorize_same_role; [exact Hrole | reflexivity]).
  intros Hstatus Harea. apply authorize_same_role; [exact Hrole|].
  intros u. unfold properties. cbn [Req.with_user Req.status Req.area].
  now rewrite Hstatus, Harea.
Qed.

Lemma routes_read_role_and_query_witness :
  GET_properties (JArray Sample.pair)
    (Sample.request (Some "ADMIN") (Some "x") None) Sample.clock 0
  = GET_properties (JArray Sample.pair)
      {| Req.x_role := Some "admin"; Req.status := Some "x"; Req.area := None;
         Req.user := Some {| role := "guest"; permissions := [] |} |}
      Sample.clock 0.
Proof.
  apply (@routes_read_role_and_query (JArray Sample.pair)
           (Sample.request (Some "ADMIN") (Some "x") None)
           {| Req.x_role := Some "admin"; Req.status := Some "x"; Req.area := None;
              Req.user := Some {| role := "guest"; permissions := [] |} |}
           Sample.clock 0);
    reflexivity.
Defined.

(* ===================================================================== *)
(** ** More on the entity mapper *)
(* ===================================================================== *)

Lemma of_nat_inj (a b : nat) : Str.of_nat a = Str.of_nat b -> a = b.
Proof.
  unfold Str.of_nat. intros H.
  apply (f_equal NilEmpty.uint_of_string) in H. rewrite !NilEmpty.usu in H.
  injection H as H. now apply Unsigned.to_uint_inj.
Qed.

Lemma numbered_inj (prefix : string) (a b : nat) :
  (prefix ++ Str.of_nat (a + 1))%string = (prefix ++ Str.of_nat (b + 1))%string ->
  a = b.
Proof.
  induction prefix as [|c prefix IH]; cbn [append]; intros H.
  - apply of_nat_inj in H. lia.
  - injection H as H. now apply IH.
Qed.

(** A list whose elements are given by an injective function of their
    position has no duplicate. *)
Lemma NoDup_indexed {A} (l : list A) (f : nat -> A) :
  (forall i j, f i = f j -> i = j) ->
  (forall i, i < List.length l -> nth_error l i = Some (f i)) ->
  NoDup l.
Proof.
  intros Hinj Hnth. apply NoDup_nth_error. intros i j Hi Heq.
  rewrite (Hnth i Hi) in Heq.
  destruct (Nat.lt_ge_cases j (List.length l)) as [Hj | Hj].
  - rewrite (Hnth j Hj) in Heq. injection Heq as Heq. now apply Hinj.
  - apply nth_error_None in Hj. congruence.
Qed.

Lemma blank_or_lit (v : option string) (d : string) : blank v -> Str.or_lit v d = d.
Proof. intros [-> | ->]; reflexivity. Qed.

(** X5: When no record carries a listing id, the units of a dataset get the
    ids UNIT-1, UNIT-2, ... by position, and no two units share an id. *)
Theorem placeholder_unitIds_distinct (items : list Raw.t) :
  Forall (fun item => blank (Raw.LISTINGID item)) items ->
  (forall index item, nth_error items index = Some item ->
     Unit.unitId (toUnit item index) = ("UNIT-" ++ Str.of_nat (index + 1))%string) /\
  NoDup (List.map Unit.unitId (Arr.map toUnit items)).
Proof.
  intros Hblank.
  assert (Hid : forall index item, nth_error items index = Some item ->
            Unit.unitId (toUnit item index) = ("UNIT-" ++ Str.of_nat (index + 1))%string).
  { intros index item Hitem. unfold toUnit; cbn [Unit.unitId].
    apply blank_or_lit. rewrite Forall_forall in Hblank.
    apply Hblank. eapply nth_error_In; eassumption. }
  split; [exact Hid|].
  apply (@NoDup_indexed _ _ (fun i => ("UNIT-" ++ Str.of_nat (i + 1))%string)).
  - intros i j. apply numbered_inj.
  - intros i Hi. rewrite length_map in Hi. unfold Arr.map in *.
    rewrite map_from_length in Hi.
    rewrite nth_error_map, map_from_nth.
    destruct (nth_error items i) as [item|] eqn:E.
    + cbn [option_map Nat.add]. f_equal. now apply Hid.
    + apply nth_error_None in E. lia.
Qed.

Lemma placeholder_unitIds_distinct_witness :
  (forall index item, nth_error Sample.pair index = Some item ->
     Unit.unitId (toUnit item index) = ("UNIT-" ++ Str.of_nat (index + 1))%string) /\
  NoDup (List.map Unit.unitId (Arr.map toUnit Sample.pair)).
Proof.
  apply (@placeholder_unitIds_distinct Sample.pair).
  repeat constructor.
Defined.

(** X6: The status of a unit is never empty: a status of the record that is
    present and not empty is kept as it is, and an absent or empty one is
    replaced by "Reserved" or "Available". *)
Theorem toUnit_status_cases (item : Raw.t) (index : nat) :
  Unit.status (toUnit item index) <> "" /\
  (forall s, Raw.STATUS item = Some s -> s <> "" ->
     Unit.status (toUnit item index) = s) /\
  (blank (Raw.STATUS item) ->
     Unit.status (toUnit item index) = "Reserved" \/
     Unit.status (toUnit item index) = "Available").
Proof.
  unfold toUnit; cbn [Unit.status]. split; [|split].
  - rewrite or_lit_chain1. apply fallback_chain_nonempty.
    destruct (Number.gt _ _); discriminate.
  - intros s -> Hs. cbn [Str.or_lit]. apply String.eqb_neq in Hs. now rewrite Hs.
  - intros Hblank. rewrite (blank_or_lit _ Hblank).
    destruct (Number.gt _ _); [now left | now right].
Qed.

Lemma toUnit_status_cases_witness :
  Unit.status (toUnit Sample.sold 0) = "Sold" /\
  (Unit.status (toUnit Sample.bare 0) = "Reserved" \/
   Unit.status (toUnit Sample.bare 0) = "Available").
Proof.
  split.
  - apply (proj1 (proj2 (toUnit_status_cases Sample.sold 0)) "Sold");
      [reflexivity | discriminate].
  - apply (proj2 (proj2 (toUnit_status_cases Sample.bare 0))). now left.
Defined.

(** X7: A record without a price: it counts as 0 in the totals, it is
    "Available" unless it has a status of its own, its pricePerSqft is NaN
    (for a sqft that is present and neither a zero nor NaN), its task is
    "Normal" and
    "General Repair", and its contract has no total price and NaN as down
    payment and as every installment amount. *)
Theorem record_without_price (item : Raw.t) (index : nat) :
  Raw.PRICE item = None ->
  let u := toUnit item index in
  Number.or_zero (Unit.price u) = Number.zero /\
  (blank (Raw.STATUS item) -> Unit.status u = "Available") /\
  (forall sqft, Raw.PROPERTYSQFT item = Some sqft ->
     Number.is_zero sqft = false -> Number.is_nan sqft = false ->
     Unit.pricePerSqft u = Some NaN) /\
  (forall clock n t n', task_of u index clock n = inr (t, n') ->
     Task.priority t = "Normal" /\ Task.type t = "General Repair") /\
  (forall clock n c n', contract_of u index clock n = inr (c, n') ->
     Contract.totalPrice c = None /\
     Contract.downPayment c = NaN /\
     Forall (fun i => Installment.amount i = NaN) (Contract.installmentSchedule c)).
Proof.
  intros Hprice u.
  assert (Hu : Unit.price u = None) by exact Hprice.
  assert (Hpp : above_500 (Unit.pricePerSqft u) = false).
  { unfold u, toUnit; cbn [Unit.pricePerSqft]. rewrite Hprice.
    cbn [Number.ToNumber]. rewrite div_NaN.
    now destruct (Number.truthy_opt (Raw.PROPERTYSQFT item)). }
  split; [now rewrite Hu|]. split; [|split].
  - intros Hblank. unfold u, toUnit; cbn [Unit.status].
    rewrite (blank_or_lit _ Hblank), Hprice. cbn [Number.ToNumber].
    now rewrite gt_NaN.
  - intros sqft Hsqft Hz Hn. unfold u, toUnit; cbn [Unit.pricePerSqft].
    rewrite Hsqft, Hprice. cbn [Number.truthy_opt Number.ToNumber].
    unfold Number.truthy. rewrite Hz, Hn, div_NaN. reflexivity.
  - clearbody u. split.
    + intros clock n t n'. unfold task_of, bind, Date_now.
      destruct (JsDate.toISOString _ _ _) as [e | [s k]]; [discriminate|].
      unfold ret. intros [= <- _]. cbn [Task.priority Task.type].
      rewrite Hu, Hpp. cbn [Number.ToNumber]. now rewrite gt_NaN.
    + intros clock n c n'. unfold contract_of, bind, Date_now.
      repeat (destruct (JsDate.toISOString _ _ _) as [? | [? ?]]; [discriminate|]).
      unfold ret. intros [= <- _].
      cbn [Contract.totalPrice Contract.downPayment Contract.installmentSchedule].
      rewrite Hu. cbn [Number.ToNumber]. rewrite !mul_NaN.
      repeat constructor.
Qed.

Lemma record_without_price_witness :
  Number.or_zero (Unit.price (toUnit Sample.unpriced 3)) = Number.zero /\
  Unit.status (toUnit Sample.unpriced 3) = "Available" /\
  Unit.pricePerSqft (toUnit Sample.unpriced 3) = Some NaN.
Proof.
  destruct (@record_without_price Sample.unpriced 3 eq_refl)
    as (Hzero & Hstatus & Hpp & _).
  split; [exact Hzero|]. split.
  - apply Hstatus. now left.
  - apply (Hpp (Number.of_Z 1000)); reflexivity.
Defined.

(* ===================================================================== *)
(** ** GET /api/property-insights *)
(* ===================================================================== *)

(** X8: The insights route answers with one element per record of the whole
    dataset, in order and without a cap: the unit of the record at its
    position, the record itself, and a premium flag that is set exactly
    when the record has a price above 1000000. *)
Theorem property_insights_all_records (items : list Raw.t) (req : Req.t)
  (clock : Clock) (n : nat) :
  exists insights,
    property_insights (JArray items) req clock n = inr (Sent200 insights, n) /\
    List.length insights = List.length items /\
    forall index item, nth_error items index = Some item ->
      exists x, nth_error insights index = Some x /\
                Insight.unit x = toUnit item index /\
                Insight.original x = item /\
                (Insight.isPremium x = true <->
                 price_exceeds (Raw.PRICE item) 1000000).
Proof.
  cbv beta iota zeta delta [property_insights as_array bind ret].
  eexists. split; [reflexivity|]. split; [apply map_from_length|].
  intros index item Hitem. unfold Arr.map. rewrite map_from_nth, Hitem.
  cbn [option_map Nat.add]. eexists. split; [reflexivity|].
  cbn [Insight.unit Insight.original Insight.isPremium].
  repeat split; apply gt_price_exceeds.
Qed.

(* ===================================================================== *)
(** ** A dataset that is no array *)
(* ===================================================================== *)

(** X9: When data.json holds anything but an array, the properties, contracts,
    tasks and insights handlers throw a TypeError (the client gets 500),
    before reading the clock or the query; only the overview handler
    answers, with the zeroed payload. *)
Theorem dataset_not_an_array (rawData : Json) (req : Req.t) (clock : Clock) (n : nat) :
  (forall items, rawData <> JArray items) ->
  properties rawData req clock n = inl TypeError /\
  sales_contracts rawData req clock n = inl TypeError /\
  maintenance_tasks rawData req clock n = inl TypeError /\
  property_insights rawData req clock n = inl TypeError /\
  dashboard_overview rawData req clock n = inr (Sent200 zero_overview, n).
Proof.
  intros Hna. destruct rawData; try (repeat split; reflexivity).
  now destruct (Hna items).
Qed.

Lemma dataset_not_an_array_witness :
  properties (JString "[]") (Sample.request None None (Some "x")) Sample.clock 0
    = inl TypeError /\
  sales_contracts (JString "[]") (Sample.request None None (Some "x")) Sample.clock 0
    = inl TypeError /\
  maintenance_tasks (JString "[]") (Sample.request None None (Some "x")) Sample.clock 0
    = inl TypeError /\
  property_insights (JString "[]") (Sample.request None None (Some "x")) Sample.clock 0
    = inl TypeError /\
  dashboard_overview (JString "[]") (Sample.request None None (Some "x")) Sample.clock 0
    = inr (Sent200 zero_overview, 0).
Proof.
  apply (@dataset_not_an_array (JString "[]")). intros items. discriminate.
Defined.

(* ===================================================================== *)
(** ** More on byArea *)
(* ===================================================================== *)

Lemma totals_count_alter (u : Unit.t) (areaMap : Obj.t AreaTotals.t)
  (name : string) (item : AreaTotals.t) :
  Obj.own areaMap name = Some item ->
  totals_count (Obj.alter (add_unit u) name areaMap) = totals_count areaMap + 1.
Proof.
  unfold totals_count, list_sum.
  induction areaMap as [|[k b] areaMap IH]; cbn [Obj.own Obj.alter]; [discriminate|].
  destruct (k =? name); intros H; cbn [List.map fold_right snd].
  - cbn [add_unit AreaTotals.count]. lia.
  - rewrite (IH H). lia.
Qed.

Lemma totals_count_alter_none (u : Unit.t) (areaMap : Obj.t AreaTotals.t)
  (name : string) :
  Obj.own areaMap name = None ->
  Obj.alter (add_unit u) name areaMap = areaMap.
Proof.
  induction areaMap as [|[k b] areaMap IH]; cbn [Obj.own Obj.alter]; [reflexivity|].
  destruct (k =? name); [discriminate|]. intros H. now rewrite (IH H).
Qed.

Lemma totals_count_set (areaMap : Obj.t AreaTotals.t) (name : string)
  (item : AreaTotals.t) :
  Obj.own areaMap name = None ->
  totals_count (Obj.set areaMap name item) = totals_count areaMap + AreaTotals.count item.
Proof.
  unfold totals_count, list_sum.
  induction areaMap as [|[k b] areaMap IH]; cbn [Obj.own Obj.set].
  - intros _. cbn [List.map fold_right snd]. lia.
  - destruct (k =? name); [discriminate|]. intros H.
    cbn [List.map fold_right snd]. rewrite (IH H). lia.
Qed.

Lemma countable_units_snoc (units : list Unit.t) (u : Unit.t) :
  List.length (countable_units (units ++ [u])) =
  List.length (countable_units units) +
  (if Obj.inherited (area_of u) then 0 else 1).
Proof.
  unfold countable_units. rewrite filter_app, length_app. cbn [filter].
  now destruct (Obj.inherited (area_of u)).
Qed.

(** The loop counts every unit once, the units of inherited names apart. *)
Lemma areaMap_loop_count (units : list Unit.t) :
  totals_count (fold_left areaMap_step units []) =
  List.length (countable_units units).
Proof.
  induction units as [|u units IH] using rev_ind; [reflexivity|].
  rewrite fold_left_app, countable_units_snoc. cbn [fold_left].
  destruct (areaMap_loop units) as [Hinv _].
  set (areaMap := fold_left areaMap_step units []) in *.
  specialize (Hinv (area_of u)).
  unfold areaMap_step, Obj.get.
  destruct (Obj.own areaMap (area_of u)) as [item|] eqn:Eown.
  - destruct Hinv as (_ & Hinh & _). rewrite Hinh.
    rewrite (totals_count_alter _ _ _ Eown). lia.
  - destruct (Obj.inherited (area_of u)).
    + rewrite totals_count_alter_none by exact Eown. lia.
    + erewrite totals_count_alter by (rewrite own_set, String.eqb_refl; reflexivity).
      rewrite totals_count_set by exact Eown. cbn [AreaTotals.count]. lia.
Qed.

Lemma list_sum_perm (l l' : list nat) : Permutation l l' -> list_sum l = list_sum l'.
Proof. unfold list_sum. induction 1; cbn [fold_right] in *; lia. Qed.

Lemma list_sum_firstn (k : nat) (l : list nat) : list_sum (firstn k l) <= list_sum l.
Proof.
  unfold list_sum. revert k. induction l as [|x l IH]; intros [|k];
    cbn [firstn fold_right] in *; try lia.
  specialize (IH k). lia.
Qed.

Lemma sorted_entries_count (units : list Unit.t) :
  entries_count
    (Arr.sort by_count_desc
       (List.map area_entry (Obj.values (fold_left areaMap_step units []))))
  = List.length (countable_units units).
Proof.
  rewrite <- areaMap_loop_count. unfold entries_count, totals_count, Obj.values.
  rewrite (list_sum_perm (Permutation_map _ (sort_perm _ _))).
  rewrite !map_map.
  apply list_sum_perm. apply (Permutation_map _ (ordered_perm _)).
Qed.

Lemma area_of_nonempty (u : Unit.t) : area_of u <> "".
Proof.
  unfold area_of. rewrite or_lit_chain1.
  apply fallback_chain_nonempty. discriminate.
Qed.

(** X11: The counts of byArea never add up to more than the number of units:
    they add up to at most the number of units whose area name is not
    inherited from [Object.prototype], and to exactly that number when
    byArea has fewer than ten elements.  Every element has a name that is
    not empty and counts at least one unit. *)
Theorem by_area_counts (units : list Unit.t) :
  entries_count (by_area units) <= List.length (countable_units units) /\
  List.length (countable_units units) <= List.length units /\
  (List.length (by_area units) < 10 ->
   entries_count (by_area units) = List.length (countable_units units)) /\
  Forall (fun e => 1 <= AreaEntry.count e /\ AreaEntry.name e <> "")
         (by_area units).
Proof.
  pose proof (sorted_entries_count units) as Hsum.
  unfold by_area, Arr.slice0 in *.
  set (sorted := Arr.sort by_count_desc _) in *.
  split; [|split; [|split]].
  - rewrite <- Hsum. unfold entries_count. rewrite <- firstn_map.
    apply list_sum_firstn.
  - unfold countable_units. apply filter_length_le.
  - intros Hlen. rewrite <- Hsum. f_equal. apply firstn_all2.
    rewrite length_firstn in Hlen. lia.
  - apply Forall_forall. intros e He.
    assert (Hin : In e (by_area units)) by exact He.
    apply by_area_entries in Hin. destruct Hin as [_ (Hne & Hcount & _)].
    destruct (units_of_area (AreaEntry.name e) units) as [|u group] eqn:E;
      [congruence|].
    split; [rewrite Hcount; cbn [List.length]; lia|].
    assert (Hu : In u (units_of_area (AreaEntry.name e) units))
      by (rewrite E; now left).
    apply filter_In in Hu. destruct Hu as [_ Hu].
    apply String.eqb_eq in Hu. rewrite <- Hu. apply area_of_nonempty.
Qed.

Lemma by_area_counts_witness :
  entries_count (by_area (Arr.map toUnit [Sample.soho; Sample.shadowed; Sample.bare]))
  = List.length (countable_units
                   (Arr.map toUnit [Sample.soho; Sample.shadowed; Sample.bare])).
Proof.
  apply (proj1 (proj2 (proj2
           (by_area_counts
              (Arr.map toUnit [Sample.soho; Sample.shadowed; Sample.bare]))))).
  cbv. lia.
Defined.

Lemma NoDup_all_same {A} (a : A) (l : list A) :
  NoDup l -> (forall x, In x l -> x = a) -> In a l -> l = [a].
Proof.
  intros Hnd Hall Hin. destruct l as [|x [|y l]]; [destruct Hin | |].
  - f_equal. apply Hall. now left.
  - exfalso. inversion Hnd as [|? ? Hx _]; subst. apply Hx.
    rewrite (Hall x) by now left. rewrite (Hall y) by (right; now left).
    now left.
Qed.

Lemma map_from_In {A B} (f : A -> nat -> B) (l : list A) (i : nat) (y : B) :
  In y (Arr.map_from f i l) -> exists x j, In x l /\ y = f x j.
Proof.
  revert i. induction l as [|x l IH]; intros i; cbn [Arr.map_from In]; [tauto|].
  intros [<- | Hy].
  - exists x, i. split; [now left | reflexivity].
  - destruct (IH _ Hy) as [x' [j [Hx' ->]]]. exists x', j. split; [now right | reflexivity].
Qed.

(** With a single area the loop keeps a single object, holding the totals
    of all the units. *)
Lemma areaMap_single (units : list Unit.t) (a : string) :
  units <> [] -> Obj.inherited a = false ->
  (forall u, In u units -> area_of u = a) ->
  exists item, fold_left areaMap_step units [] = [(a, item)] /\
               totals_of_area units a item.
Proof.
  intros Hne Hinh Hall. destruct (areaMap_loop units) as [Hinv Hnd].
  set (areaMap := fold_left areaMap_step units []) in *.
  assert (Hkeys : List.map fst areaMap = [a]).
  { apply NoDup_all_same; [exact Hnd | |].
    - intros k Hk.
      destruct (Obj.own areaMap k) as [item|] eqn:Eown;
        [|now apply own_None in Eown].
      specialize (Hinv k). rewrite Eown in Hinv.
      destruct Hinv as (_ & _ & Hgroup & _).
      destruct (units_of_area k units) as [|u group] eqn:E; [congruence|].
      assert (Hu : In u (units_of_area k units)) by (rewrite E; now left).
      apply filter_In in Hu. destruct Hu as [Hu Hk'].
      apply String.eqb_eq in Hk'. rewrite <- Hk'. now apply Hall.
    - destruct (Obj.own areaMap a) as [item|] eqn:Eown.
      + destruct (in_dec string_dec a (List.map fst areaMap)) as [Hin | Hin];
          [exact Hin|]. apply own_None in Hin. congruence.
      + exfalso. specialize (Hinv a). rewrite Eown in Hinv.
        destruct Hinv as [Hinv | Hinv]; [congruence|].
        destruct units as [|u units']; [congruence|].
        assert (Hu : In u (units_of_area a (u :: units'))).
        { apply filter_In. split; [now left|].
          apply String.eqb_eq. apply Hall. now left. }
        rewrite Hinv in Hu. exact Hu. }
  destruct areaMap as [|[k item] [|]] eqn:E; try discriminate Hkeys.
  injection Hkeys as ->. exists item. split; [reflexivity|].
  specialize (Hinv a). cbn [Obj.own] in Hinv.
  now rewrite String.eqb_refl in Hinv.
Qed.

Lemma values_single {A} (name : string) (item : A) :
  Obj.values [(name, item)] = [item].
Proof.
  unfold Obj.values, Obj.ordered. cbn [filter].
  now destruct (Obj.is_index (name, item)).
Qed.

(** X12: When every record of a non-empty dataset is counted in the same
    area (all without a sub-locality, for instance, the area being
    "Unknown"), and the name of that area is not one inherited from
    [Object.prototype] (such as "constructor" or "toString"), byArea has
    that area as its only element, with all the units, and its average is
    Math.round of the top-level avgPrice. *)
Theorem overview_single_area (items : list Raw.t) (a : string)
  (req : Req.t) (clock : Clock) (n : nat) :
  items <> [] -> Obj.inherited a = false ->
  Forall (fun item => area_of_record item = a) items ->
  exists ov,
    dashboard_overview (JArray items) req clock n = inr (Sent200 ov, n) /\
    Overview.byArea ov =
      [ {| AreaEntry.name := a;
           AreaEntry.avgPrice := Number.Math_round (Overview.avgPrice ov);
           AreaEntry.count := Overview.unitCount ov |} ].
Proof.
  intros Hne Hinh Hall.
  destruct (dashboard_overview_run (JArray items) req clock n)
    as [ov (Hrun & Hcount & Htotal & Havg & Hby)].
  exists ov. split; [exact Hrun|].
  cbn [dataset_units] in *. set (units := Arr.map toUnit items) in *.
  assert (Hunits : forall u, In u units -> area_of u = a).
  { intros u Hu. apply map_from_In in Hu. destruct Hu as [item [j [Hitem ->]]].
    rewrite Forall_forall in Hall. exact (Hall _ Hitem). }
  assert (Hlen : List.length units <> 0).
  { unfold units, Arr.map. rewrite map_from_length.
    destruct items; [congruence | discriminate]. }
  assert (Hne' : units <> []) by (destruct units; [contradiction | discriminate]).
  destruct (areaMap_single Hne' Hinh Hunits) as [item [Hmap Htotals]].
  assert (Hgroup : units_of_area a units = units).
  { apply forallb_filter_id. apply forallb_forall. intros u Hu.
    apply String.eqb_eq. now apply Hunits. }
  destruct Htotals as (Hname & _ & _ & Hc & Ht). rewrite Hgroup in Hc, Ht.
  rewrite Hby. unfold by_area. rewrite Hmap, values_single.
  cbn [List.map Arr.sort fold_right Arr.insert Arr.slice0 firstn].
  unfold area_entry. rewrite Hname, Hc, Ht, Havg, Hcount, Htotal, total_value_sum.
  apply Nat.eqb_neq in Hlen. rewrite Hlen. cbn [negb].
  apply Nat.eqb_neq in Hlen.
  assert (Hlt : (0 <? List.length units)%nat = true) by (apply Nat.ltb_lt; lia).
  now rewrite Hlt.
Qed.

Lemma overview_single_area_witness :
  exists ov,
    dashboard_overview (JArray Sample.three) (Sample.request None None None)
                       Sample.clock 0 = inr (Sent200 ov, 0) /\
    Overview.byArea ov =
      [ {| AreaEntry.name := "Unknown";
           AreaEntry.avgPrice := Number.Math_round (Overview.avgPrice ov);
           AreaEntry.count := Overview.unitCount ov |} ].
Proof.
  apply (@overview_single_area Sample.three "Unknown");
    [discriminate | reflexivity | repeat constructor].
Defined.

(* ===================================================================== *)
(** ** More on GET /api/properties *)
(* ===================================================================== *)

Lemma passes_status_lower (s1 s2 : option string) (u : Unit.t) :
  option_map Str.toLowerCase s1 = option_map Str.toLowerCase s2 ->
  passes_status s1 u = passes_status s2 u.
Proof.
  destruct s1 as [s1|], s2 as [s2|]; cbn [option_map]; try discriminate;
    [|reflexivity].
  intros [= H]. unfold passes_status, equals_ignoring_case.
  now rewrite <- (toLowerCase_empty s1), <- (toLowerCase_empty s2), H.
Qed.

Lemma passes_area_lower (a1 a2 : option string) (u : Unit.t) :
  option_map Str.toLowerCase a1 = option_map Str.toLowerCase a2 ->
  passes_area a1 u = passes_area a2 u.
Proof.
  destruct a1 as [a1|], a2 as [a2|]; cbn [option_map]; try discriminate;
    [|reflexivity].
  intros [= H]. unfold passes_area, contains_ignoring_case.
  now rewrite <- (toLowerCase_empty a1), <- (toLowerCase_empty a2), H.
Qed.

(** X13: The letter case of the query values does not matter: two requests
    whose status values, and whose area values, are equal after
    lowercasing get the same answer from the handler. *)
Theorem properties_query_ignores_case (rawData : Json) (req1 req2 : Req.t)
  (clock : Clock) (n : nat) :
  option_map Str.toLowerCase (Req.status req1) =
    option_map Str.toLowerCase (Req.status req2) ->
  option_map Str.toLowerCase (Req.area req1) =
    option_map Str.toLowerCase (Req.area req2) ->
  properties rawData req1 clock n = properties rawData req2 clock n.
Proof.
  intros Hs Ha. destruct rawData; try reflexivity.
  rewrite !properties_run. erewrite filter_ext; [reflexivity|].
  intros u. cbv beta.
  now rewrite (passes_status_lower _ _ u Hs), (passes_area_lower _ _ u Ha).
Qed.

Lemma properties_query_ignores_case_witness :
  properties (JArray [Sample.soho; Sample.sold])
             (Sample.request None (Some "SOLD") (Some "soHO")) Sample.clock 0
  = properties (JArray [Sample.soho; Sample.sold])
               (Sample.request None (Some "sold") (Some "Soho")) Sample.clock 0.
Proof.
  apply (@properties_query_ignores_case (JArray [Sample.soho; Sample.sold])
           (Sample.request None (Some "SOLD") (Some "soHO"))
           (Sample.request None (Some "sold") (Some "Soho")));
    reflexivity.
Defined.

Lemma derived_status (item : Raw.t) (index : nat) :
  blank (Raw.STATUS item) ->
  Unit.status (toUnit item index) =
  if above_800000 (toUnit item index) then "Reserved" else "Available".
Proof.
  intros Hblank. unfold toUnit, above_800000; cbn [Unit.status Unit.price].
  now rewrite (blank_or_lit _ Hblank).
Qed.

(** X14: On a dataset without a status of its own in any record, the status
    filter selects by price: the value "reserved" (in any letter case)
    returns the first 200 units priced above 800000, the value "available"
    the first 200 of the others, and any other non-empty value returns
    nothing. *)
Theorem properties_by_derived_status (items : list Raw.t) (req : Req.t)
  (clock : Clock) (n : nat) (s : string) :
  Forall (fun item => blank (Raw.STATUS item)) items ->
  Req.status req = Some s -> s <> "" -> Req.area req = None ->
  exists body,
    properties (JArray items) req clock n = inr (Sent200 body, n) /\
    (Str.toLowerCase s = "reserved" ->
     body = firstn 200 (filter above_800000 (Arr.map toUnit items))) /\
    (Str.toLowerCase s = "available" ->
     body = firstn 200 (filter (fun u => negb (above_800000 u))
                               (Arr.map toUnit items))) /\
    (Str.toLowerCase s <> "reserved" -> Str.toLowerCase s <> "available" ->
     body = []).
Proof.
  intros Hblank Hstatus Hs Harea. eexists. split; [apply properties_run|].
  rewrite Hstatus, Harea.
  assert (Hpass : forall u, In u (Arr.map toUnit items) ->
            passes_status (Some s) u && passes_area None u =
            (Str.toLowerCase
               (if above_800000 u then "Reserved" else "Available")
             =? Str.toLowerCase s)).
  { intros u Hu. apply map_from_In in Hu. destruct Hu as [item [j [Hitem ->]]].
    rewrite Forall_forall in Hblank.
    unfold passes_status, passes_area, equals_ignoring_case.
    rewrite (@derived_status item j (Hblank _ Hitem)).
    apply String.eqb_neq in Hs. rewrite Hs. cbn [orb]. apply andb_true_r. }
  split; [|split].
  - intros Hr. f_equal. apply filter_ext_in. intros u Hu.
    rewrite (Hpass u Hu), Hr. now destruct (above_800000 u).
  - intros Hav. f_equal. apply filter_ext_in. intros u Hu.
    rewrite (Hpass u Hu), Hav. now destruct (above_800000 u).
  - intros Hr Hav.
    erewrite filter_ext_in; [rewrite filter_false; reflexivity|].
    intros u Hu. rewrite (Hpass u Hu). apply String.eqb_neq.
    destruct (above_800000 u);
      [change (Str.toLowerCase "Reserved") with "reserved"
      |change (Str.toLowerCase "Available") with "available"]; congruence.
Qed.

Lemma properties_by_derived_status_witness :
  exists body,
    properties (JArray [Sample.soho; Sample.bare])
               (Sample.request None (Some "Reserved") None) Sample.clock 0
    = inr (Sent200 body, 0) /\
    (Str.toLowerCase "Reserved" = "reserved" ->
     body = firstn 200 (filter above_800000
                               (Arr.map toUnit [Sample.soho; Sample.bare]))) /\
    (Str.toLowerCase "Reserved" = "available" ->
     body = firstn 200 (filter (fun u => negb (above_800000 u))
                               (Arr.map toUnit [Sample.soho; Sample.bare]))) /\
    (Str.toLowerCase "Reserved" <> "reserved" ->
     Str.toLowerCase "Reserved" <> "available" -> body = []).
Proof.
  apply (@properties_by_derived_status [Sample.soho; Sample.bare]
           (Sample.request None (Some "Reserved") None) Sample.clock 0 "Reserved");
    [repeat constructor | reflexivity | discriminate | reflexivity].
Defined.

(* ===================================================================== *)
(** ** More on contracts and tasks *)
(* ===================================================================== *)

Lemma contract_of_labels (clock : Clock) (unit : Unit.t) (index n : nat) :
  clock_in_range clock -> index < 100 ->
  exists c, contract_of unit index clock n = inr (c, n + 4) /\
            contract_terms clock n unit c /\ contract_labels clock n index c.
Proof.
  intros Hclock Hindex.
  destruct (contract_of_run unit n Hclock Hindex) as [c [Hrun Hterms]].
  exists c. split; [exact Hrun|]. split; [exact Hterms|].
  assert (H0 := Hclock n). assert (H1 := Hclock (S n)).
  assert (H2 := Hclock (S (S n))). assert (H3 := Hclock (S (S (S n)))).
  unfold JsDate.maxTime, JsDate.msPerDay in H0, H1, H2, H3.
  revert Hrun. unfold contract_of, bind, Date_now.
  rewrite !toISOString_run by (unfold JsDate.maxTime; lia).
  unfold ret. intros [= <-]. repeat split.
Qed.

Lemma task_of_labels (clock : Clock) (unit : Unit.t) (index n : nat) :
  clock_in_range clock -> index < 50 ->
  exists t, task_of unit index clock n = inr (t, n + 1) /\
            task_terms index unit t /\ task_labels clock n index unit t.
Proof.
  intros Hclock Hindex.
  destruct (task_of_run unit n Hclock Hindex) as [t [Hrun Hterms]].
  exists t. split; [exact Hrun|]. split; [exact Hterms|].
  assert (H0 := Hclock n). unfold JsDate.maxTime, JsDate.msPerDay in H0.
  revert Hrun. unfold task_of, bind, Date_now.
  rewrite toISOString_run by (unfold JsDate.maxTime; lia).
  unfold ret. intros [= <-]. repeat split.
Qed.

(** The contracts handler, element by element, from the answer back to
    the records. *)
Lemma sales_contracts_run (items : list Raw.t) (req : Req.t) (clock : Clock) :
  clock_in_range clock ->
  exists contracts,
    sales_contracts (JArray items) req clock 0
      = inr (Sent200 contracts, 4 * List.length contracts) /\
    List.length contracts = Nat.min 100 (List.length items) /\
    forall index c, nth_error contracts index = Some c ->
      exists item, nth_error items index = Some item /\ index < 100 /\
                   contract_terms clock (4 * index) (toUnit item index) c /\
                   contract_labels clock (4 * index) index c.
Proof.
  intros Hclock.
  set (units := Arr.map toUnit (Arr.slice0 100 items)).
  assert (Hlen : List.length units = Nat.min 100 (List.length items))
    by apply units_of_slice_length.
  destruct (@mapM_from_run _ _ contract_of
              (fun i n unit c => contract_terms clock n unit c /\
                                 contract_labels clock n i c) 4 100 clock
              (fun x i n Hi => contract_of_labels x n Hclock Hi)
              units 0 0 ltac:(lia))
    as [contracts [Hrun [Hl Hnth]]].
  exists contracts. split; [|split].
  - unfold sales_contracts, as_array, bind, ret, Arr.mapM. fold units.
    rewrite Hrun, Hl. reflexivity.
  - now rewrite Hl.
  - intros index c Hc.
    assert (Hindex : index < List.length units).
    { rewrite <- Hl. apply nth_error_Some. congruence. }
    destruct (nth_error units index) as [u|] eqn:Eu;
      [|apply nth_error_None in Eu; lia].
    destruct (units_of_slice_inv _ _ _ Eu) as [item [Hitem [-> Hlt]]].
    destruct (Hnth index _ Eu) as [c' [Hc' [Hterms Hlabels]]].
    assert (c' = c) by congruence. subst c'.
    exists item. split; [exact Hitem|]. split; [exact Hlt|].
    split; [exact Hterms | exact Hlabels].
Qed.

(** The tasks handler, element by element, from the answer back to the
    records. *)
Lemma maintenance_tasks_run (items : list Raw.t) (req : Req.t) (clock : Clock) :
  clock_in_range clock ->
  exists tasks,
    maintenance_tasks (JArray items) req clock 0
      = inr (Sent200 tasks, List.length tasks) /\
    List.length tasks = Nat.min 50 (List.length items) /\
    forall index t, nth_error tasks index = Some t ->
      exists item, nth_error items index = Some item /\ index < 50 /\
                   task_terms index (toUnit item index) t /\
                   task_labels clock index index (toUnit item index) t.
Proof.
  intros Hclock.
  set (units := Arr.map toUnit (Arr.slice0 50 items)).
  assert (Hlen : List.length units = Nat.min 50 (List.length items))
    by apply units_of_slice_length.
  destruct (@mapM_from_run _ _ task_of
              (fun i n unit t => task_terms i unit t /\
                                 task_labels clock n i unit t) 1 50 clock
              (fun x i n Hi => task_of_labels x n Hclock Hi)
              units 0 0 ltac:(lia))
    as [tasks [Hrun [Hl Hnth]]].
  exists tasks. split; [|split].
  - unfold maintenance_tasks, as_array, bind, ret, Arr.mapM. fold units.
    rewrite Hrun, Hl. do 3 f_equal. lia.
  - now rewrite Hl.
  - intros index t Ht.
    assert (Hindex : index < List.length units).
    { rewrite <- Hl. apply nth_error_Some. congruence. }
    destruct (nth_error units index) as [u|] eqn:Eu;
      [|apply nth_error_None in Eu; lia].
    destruct (units_of_slice_inv _ _ _ Eu) as [item [Hitem [-> Hlt]]].
    destruct (Hnth index _ Eu) as [t' [Ht' [Hterms Hlabels]]].
    assert (t' = t) by congruence. subst t'.
    exists item. split; [exact Hitem|]. split; [exact Hlt|].
    split; [exact Hterms|].
    replace (0 + 1 * index) with index in Hlabels by lia. exact Hlabels.
Qed.

Lemma NoDup_labels {A} (l : list A) (label : A -> string) (prefix : string) :
  (forall index x, nth_error l index = Some x ->
     label x = (prefix ++ Str.of_nat (index + 1))%string) ->
  NoDup (List.map label l).
Proof.
  intros Hlabel.
  apply (@NoDup_indexed _ _ (fun i => (prefix ++ Str.of_nat (i + 1))%string)).
  - intros i j. apply numbered_inj.
  - intros i Hi. rewrite length_map in Hi. rewrite nth_error_map.
    destruct (nth_error l i) as [x|] eqn:E.
    + cbn [option_map]. f_equal. now apply Hlabel.
    + apply nth_error_None in E. lia.
Qed.

(** X15: The contract at position i is numbered CN-(i+1), its buyer is
    "Buyer (i+1)", and it is booked i days before the clock reading taken
    for it; no two contracts of an answer share a contractId. *)
Theorem sales_contracts_labels (items : list Raw.t) (req : Req.t) (clock : Clock) :
  clock_in_range clock ->
  exists contracts,
    sales_contracts (JArray items) req clock 0
      = inr (Sent200 contracts, 4 * List.length contracts) /\
    (forall index c, nth_error contracts index = Some c ->
       contract_labels clock (4 * index) index c) /\
    NoDup (List.map Contract.contractId contracts).
Proof.
  intros Hclock.
  destruct (sales_contracts_run items req Hclock) as [contracts (Hrun & _ & Hnth)].
  exists contracts. split; [exact Hrun|].
  assert (Hlabels : forall index c, nth_error contracts index = Some c ->
            contract_labels clock (4 * index) index c).
  { intros index c Hc. destruct (Hnth index c Hc) as [item (_ & _ & _ & H)]. exact H. }
  split; [exact Hlabels|].
  apply (@NoDup_labels _ _ _ "CN-"). intros index c Hc. apply (Hlabels index c Hc).
Qed.

Lemma sales_contracts_labels_witness :
  exists contracts,
    sales_contracts (JArray Sample.three) (Sample.request None None None)
                    Sample.clock 0
      = inr (Sent200 contracts, 4 * List.length contracts) /\
    (forall index c, nth_error contracts index = Some c ->
       contract_labels Sample.clock (4 * index) index c) /\
    NoDup (List.map Contract.contractId contracts).
Proof.
  apply (@sales_contracts_labels Sample.three (Sample.request None None None)
           Sample.clock).
  intros k. unfold Sample.clock, JsDate.maxTime, JsDate.msPerDay. lia.
Defined.

(** X16: The task at position i is numbered MT-(i+1), carries the project name
    and the sub-locality of the unit of record i, and is scheduled i+1 days
    after the clock reading taken for it; no two tasks of an answer share a
    taskId. *)
Theorem maintenance_tasks_labels (items : list Raw.t) (req : Req.t) (clock : Clock) :
  clock_in_range clock ->
  exists tasks,
    maintenance_tasks (JArray items) req clock 0
      = inr (Sent200 tasks, List.length tasks) /\
    (forall index t, nth_error tasks index = Some t ->
       exists item, nth_error items index = Some item /\
                    task_labels clock index index (toUnit item index) t) /\
    NoDup (List.map Task.taskId tasks).
Proof.
  intros Hclock.
  destruct (maintenance_tasks_run items req Hclock) as [tasks (Hrun & _ & Hnth)].
  exists tasks. split; [exact Hrun|]. split.
  - intros index t Ht. destruct (Hnth index t Ht) as [item (Hitem & _ & _ & H)].
    now exists item.
  - apply (@NoDup_labels _ _ _ "MT-"). intros index t Ht.
    destruct (Hnth index t Ht) as [item (_ & _ & _ & H)]. apply H.
Qed.

Lemma maintenance_tasks_labels_witness :
  exists tasks,
    maintenance_tasks (JArray Sample.three) (Sample.request None None None)
                      Sample.clock 0
      = inr (Sent200 tasks, List.length tasks) /\
    (forall index t, nth_error tasks index = Some t ->
       exists item, nth_error Sample.three index = Some item /\
                    task_labels Sample.clock index index (toUnit item index) t) /\
    NoDup (List.map Task.taskId tasks).
Proof.
  apply (@maintenance_tasks_labels Sample.three (Sample.request None None None)
           Sample.clock).
  intros k. unfold Sample.clock, JsDate.maxTime, JsDate.msPerDay. lia.
Defined.

(* ===================================================================== *)
(** ** The answers of the routes agree *)
(* ===================================================================== *)

Lemma properties_unfiltered (items : list Raw.t) (req : Req.t)
  (clock : Clock) (n : nat) :
  Req.status req = None -> Req.area req = None ->
  properties (JArray items) req clock n =
  inr (Sent200 (firstn 200 (Arr.map toUnit items)), n).
Proof.
  intros Hs Ha. rewrite properties_run, Hs, Ha.
  rewrite forallb_filter_id; [reflexivity | now apply forallb_forall].
Qed.

Lemma first_200_nth (items : list Raw.t) (index : nat) (item : Raw.t) :
  index < 200 -> nth_error items index = Some item ->
  nth_error (firstn 200 (Arr.map toUnit items)) index = Some (toUnit item index).
Proof.
  intros Hlt Hitem. rewrite nth_error_firstn.
  apply Nat.ltb_lt in Hlt. rewrite Hlt.
  unfold Arr.map. now rewrite map_from_nth, Hitem.
Qed.

(** X17: The three sales and maintenance answers describe the same units at
    the same positions: the contract and the task at position i carry the
    unitId of the i-th unit of the unfiltered /api/properties answer, the
    contract its price as total price, the task its project name and
    sub-locality. *)
Theorem contracts_and_tasks_match_properties (items : list Raw.t)
  (req_c req_t req_p : Req.t) (clock : Clock) :
  clock_in_range clock ->
  Req.status req_p = None -> Req.area req_p = None ->
  exists contracts tasks units,
    sales_contracts (JArray items) req_c clock 0
      = inr (Sent200 contracts, 4 * List.length contracts) /\
    maintenance_tasks (JArray items) req_t clock 0
      = inr (Sent200 tasks, List.length tasks) /\
    properties (JArray items) req_p clock 0 = inr (Sent200 units, 0) /\
    (forall index c, nth_error contracts index = Some c ->
       exists u, nth_error units index = Some u /\
                 Contract.unitId c = Unit.unitId u /\
                 Contract.totalPrice c = Unit.price u) /\
    (forall index t, nth_error tasks index = Some t ->
       exists u, nth_error units index = Some u /\
                 Task.unitId t = Unit.unitId u /\
                 Task.projectName t = Unit.projectName u /\
                 Task.subLocality t = Unit.subLocality u).
Proof.
  intros Hclock Hs Ha.
  destruct (sales_contracts_run items req_c Hclock) as [contracts (Hc & _ & Hcn)].
  destruct (maintenance_tasks_run items req_t Hclock) as [tasks (Ht & _ & Htn)].
  exists contracts, tasks, (firstn 200 (Arr.map toUnit items)).
  split; [exact Hc|]. split; [exact Ht|].
  split; [now apply properties_unfiltered|]. split.
  - intros index c Hnth.
    destruct (Hcn index c Hnth) as [item (Hitem & Hlt & Hterms & _)].
    exists (toUnit item index).
    split; [apply first_200_nth; [lia | exact Hitem]|].
    destruct Hterms as (Hid & Hprice & _). now split.
  - intros index t Hnth.
    destruct (Htn index t Hnth) as [item (Hitem & Hlt & Hterms & Hlabels)].
    exists (toUnit item index).
    split; [apply first_200_nth; [lia | exact Hitem]|].
    destruct Hterms as (Hid & _). destruct Hlabels as (_ & Hp & Hsub & _).
    now repeat split.
Qed.

Lemma contracts_and_tasks_match_properties_witness :
  exists contracts tasks units,
    sales_contracts (JArray Sample.three) (Sample.request None None None)
                    Sample.clock 0
      = inr (Sent200 contracts, 4 * List.length contracts) /\
    maintenance_tasks (JArray Sample.three) (Sample.request None None None)
                      Sample.clock 0
      = inr (Sent200 tasks, List.length tasks) /\
    properties (JArray Sample.three) (Sample.request None None None)
               Sample.clock 0 = inr (Sent200 units, 0) /\
    (forall index c, nth_error contracts index = Some c ->
       exists u, nth_error units index = Some u /\
                 Contract.unitId c = Unit.unitId u /\
                 Contract.totalPrice c = Unit.price u) /\
    (forall index t, nth_error tasks index = Some t ->
       exists u, nth_error units index = Some u /\
                 Task.unitId t = Unit.unitId u /\
                 Task.projectName t = Unit.projectName u /\
                 Task.subLocality t = Unit.subLocality u).
Proof.
  apply (@contracts_and_tasks_match_properties Sample.three
           (Sample.request None None None) (Sample.request None None None)
           (Sample.request None None None) Sample.clock);
    [|reflexivity|reflexivity].
  intros k. unfold Sample.clock, JsDate.maxTime, JsDate.msPerDay. lia.
Defined.

(* ===================================================================== *)
(** ** Where a 500 can come from *)
(* ===================================================================== *)



